(** * AudioProcessor: the request handlers of [server.py]

    A shallow embedding of the two handlers that do real work,
    [transcribe_audio] (POST /api/transcribe) and [search]
    (POST /api/search), together with the slice of Python, [requests],
    [bs4], [datetime] and [os] semantics they rely on.

    Conventions.
    - A Python [str] is a Rocq [string]; its characters are read as the
      code points U+0000..U+00FF, so [len] is [String.length].
    - A Python exception is [Raise e], with [e] the text [str(e)]; every
      handler of the source catches [Exception], so the class is not kept.
    - The outside world (clock, HTTP peers, the speech providers, faults of
      the file system) is an [env] of oracles; what the handlers change
      (files, calls made) is a [state] threaded through a small monad. *)

From Stdlib Require Import ZArith String Ascii List Bool Lia DecimalString.
From Stdlib Require Import Floats.SpecFloat.
From stdpp Require Import base option list gmap strings.

Open Scope string_scope.

(** ** Python values and primitives *)

Module Py.

(** Outcome of an expression that may raise. *)
Inductive result (A : Type) : Type :=
| Ok (a : A)
| Raise (e : string).
Arguments Ok {A} a.
Arguments Raise {A} e.

(** Sequencing of expressions that may raise. *)
Definition rbind {A B} (r : result A) (k : A -> result B) : result B :=
  match r with
  | Ok a => k a
  | Raise e => Raise e
  end.

(** [bytes]. *)
Definition bytes : Type := list Byte.byte.

Definition code (c : ascii) : N := N_of_ascii c.

(** [str.lower] on one code point below U+0100: A..Z and the accented
    capitals U+00C0..U+00DE (the multiplication sign U+00D7 apart). *)
Definition lower_char (c : ascii) : ascii :=
  let n := code c in
  if ((65 <=? n) && (n <=? 90))%N then ascii_of_N (n + 32)
  else if ((192 <=? n) && (n <=? 222) && negb (n =? 215))%N
       then ascii_of_N (n + 32)
  else c.

(** [s.lower()] *)
Fixpoint lower (s : string) : string :=
  match s with
  | EmptyString => EmptyString
  | String c r => String (lower_char c) (lower r)
  end.

(** [s.startswith(p)] *)
Fixpoint startswith (p s : string) : bool :=
  match p, s with
  | EmptyString, _ => true
  | String a p', String b s' => if ascii_dec a b then startswith p' s' else false
  | String _ _, EmptyString => false
  end.

(** [needle in hay] for two [str]: a left-to-right scan. *)
Fixpoint str_in (needle hay : string) : bool :=
  startswith needle hay ||
  match hay with
  | EmptyString => false
  | String _ r => str_in needle r
  end.

(** [any(f(x) for x in l)] *)
Fixpoint any {A : Type} (f : A -> bool) (l : list A) : bool :=
  match l with
  | [] => false
  | x :: r => f x || any f r
  end.

(** [sep.join(l)] for a list of [str]. *)
Fixpoint join (sep : string) (l : list string) : string :=
  match l with
  | [] => ""
  | [x] => x
  | x :: r => x ++ sep ++ join sep r
  end.

(** [str.isspace] on one code point below U+0100. *)
Definition isspace (c : ascii) : bool :=
  let n := code c in
  (((9 <=? n) && (n <=? 13)) || ((28 <=? n) && (n <=? 32))
   || (n =? 133) || (n =? 160))%N.

Fixpoint lstrip (s : string) : string :=
  match s with
  | EmptyString => EmptyString
  | String c r => if isspace c then lstrip r else s
  end.

Fixpoint rstrip (s : string) : string :=
  match s with
  | EmptyString => EmptyString
  | String c r =>
      match rstrip r with
      | EmptyString => if isspace c then EmptyString else String c EmptyString
      | r' => String c r'
      end
  end.

(** [s.strip()] *)
Definition strip (s : string) : string := rstrip (lstrip s).

(** Truthiness of a [str]. *)
Definition str_bool (s : string) : bool :=
  match s with EmptyString => false | _ => true end.

(** [s[:n]] *)
Fixpoint str_take (n : nat) (s : string) : string :=
  match n, s with
  | S n', String c r => String c (str_take n' r)
  | _, _ => EmptyString
  end.

(** Iterating a [str] yields its characters as one-character strings. *)
Fixpoint str_iter (s : string) : list string :=
  match s with
  | EmptyString => []
  | String c r => String c EmptyString :: str_iter r
  end.

End Py.

Import Py.

Declare Scope py_scope.
Delimit Scope py_scope with py.
Notation "'let+' x ':=' r 'in' k" := (rbind r (fun x => k))
  (at level 10, x pattern, r at level 100, k at level 200) : py_scope.
Open Scope py_scope.

(** ** The query classifier (first lines of [search]) *)

Module Classifier.

Definition cricket_keywords : list string :=
  ["cricket"; "sports"; "match"; "game"; "wicket"; "yesterday"].

(** [is_cricket_query], as a function of the lowercased query. *)
Definition is_cricket_query (query : string) : bool :=
  any (fun keyword => str_in keyword query) cricket_keywords.

(** The classification of the raw request string. *)
Definition classify (request_query : string) : bool :=
  is_cricket_query (lower request_query).

End Classifier.

(** ** JSON values, as [response.json()] returns them *)

Module Json.

(** A parsed JSON document: [None], [bool], [int], [float], [str],
    [list] and [dict] with [str] keys. *)
#[warnings="-register-all"]
Inductive json : Type :=
| JNull
| JBool (b : bool)
| JInt (z : Z)
| JFloat (f : spec_float)
| JStr (s : string)
| JList (l : list json)
| JDict (d : gmap string json).

(** [bool(v)] *)
Definition truthy (v : json) : bool :=
  match v with
  | JNull => false
  | JBool b => b
  | JInt z => negb (z =? 0)%Z
  | JFloat (S754_zero _) => false
  | JFloat _ => true
  | JStr s => str_bool s
  | JList l => match l with [] => false | _ => true end
  | JDict d => negb (bool_decide (d = ∅))
  end.

(** [v == key] for a [str] [key]: only an equal [str] compares equal. *)
Definition eq_str (key : string) (v : json) : bool :=
  match v with
  | JStr s => bool_decide (s = key)
  | _ => false
  end.

(** [key in v] for a [str] [key]: key membership for a [dict], element
    membership for a [list], substring for a [str]; other values are not
    iterable and raise [TypeError]. *)
Definition contains (key : string) (v : json) : result bool :=
  match v with
  | JDict d => Ok (bool_decide (is_Some (d !! key)))
  | JList l => Ok (any (eq_str key) l)
  | JStr s => Ok (str_in key s)
  | JNull => Raise "argument of type 'NoneType' is not iterable"
  | JBool _ => Raise "argument of type 'bool' is not iterable"
  | JInt _ => Raise "argument of type 'int' is not iterable"
  | JFloat _ => Raise "argument of type 'float' is not iterable"
  end.

(** [v[key]] for a [str] [key]. *)
Definition getitem (key : string) (v : json) : result json :=
  match v with
  | JDict d =>
      match d !! key with
      | Some x => Ok x
      | None => Raise ("'" ++ key ++ "'")
      end
  | JList _ => Raise "list indices must be integers or slices, not str"
  | JStr _ => Raise "string indices must be integers, not 'str'"
  | JNull => Raise "'NoneType' object is not subscriptable"
  | JBool _ => Raise "'bool' object is not subscriptable"
  | JInt _ => Raise "'int' object is not subscriptable"
  | JFloat _ => Raise "'float' object is not subscriptable"
  end.

(** [v[:n]], then iterated: the elements the [for] loop visits. A [dict]
    cannot be sliced; numbers, booleans and [None] cannot be subscripted. *)
Definition slice_to (n : nat) (v : json) : result (list json) :=
  match v with
  | JList l => Ok (take n l)
  | JStr s => Ok (JStr <$> str_iter (str_take n s))
  | JDict _ => Raise "slice(None, 3, None)"
  | JNull => Raise "'NoneType' object is not subscriptable"
  | JBool _ => Raise "'bool' object is not subscriptable"
  | JInt _ => Raise "'int' object is not subscriptable"
  | JFloat _ => Raise "'float' object is not subscriptable"
  end.

(** The [str] items of a list, or the [TypeError] of [str.join] at the
    first item that is not a [str]. *)
Fixpoint as_strs (l : list json) : result (list string) :=
  match l with
  | [] => Ok []
  | JStr s :: r =>
      match as_strs r with
      | Ok ss => Ok (s :: ss)
      | Raise e => Raise e
      end
  | _ :: _ => Raise "sequence item: expected str instance"
  end.

(** [sep.join(l)] for a list of JSON values. *)
Definition join (sep : string) (l : list json) : result string :=
  match as_strs l with
  | Ok ss => Ok (Py.join sep ss)
  | Raise e => Raise e
  end.

End Json.

Import Json.

(** ** [datetime]: the proleptic Gregorian calendar of CPython *)

Module DateTime.

Open Scope Z_scope.

(** A naive [datetime], to the second. *)
Record datetime : Type := mkDatetime {
  year : Z; month : Z; day : Z;
  hour : Z; minute : Z; second : Z
}.

Definition _is_leap (y : Z) : bool :=
  (y mod 4 =? 0) && (negb (y mod 100 =? 0) || (y mod 400 =? 0)).

Definition _DAYS_IN_MONTH : list Z :=
  [-1; 31; 28; 31; 30; 31; 30; 31; 31; 30; 31; 30; 31].

Definition _DAYS_BEFORE_MONTH : list Z :=
  [-1; 0; 31; 59; 90; 120; 151; 181; 212; 243; 273; 304; 334].

Definition _days_before_year (y : Z) : Z :=
  let y := y - 1 in y * 365 + y / 4 - y / 100 + y / 400.

Definition _days_in_month (y m : Z) : Z :=
  if (m =? 2) && _is_leap y then 29 else nth (Z.to_nat m) _DAYS_IN_MONTH 0.

Definition _days_before_month (y m : Z) : Z :=
  nth (Z.to_nat m) _DAYS_BEFORE_MONTH 0
  + (if (2 <? m) && _is_leap y then 1 else 0).

(** [date.toordinal()]: 0001-01-01 is day 1. *)
Definition _ymd2ord (y m d : Z) : Z :=
  _days_before_year y + _days_before_month y m + d.

Definition _DI400Y : Z := 146097.
Definition _DI100Y : Z := 36524.
Definition _DI4Y : Z := 1461.

(** [date.fromordinal(n)], as the triple (year, month, day). *)
Definition _ord2ymd (n : Z) : Z * Z * Z :=
  let n := n - 1 in
  let n400 := n / _DI400Y in let n := n mod _DI400Y in
  let y := n400 * 400 + 1 in
  let n100 := n / _DI100Y in let n := n mod _DI100Y in
  let n4 := n / _DI4Y in let n := n mod _DI4Y in
  let n1 := n / 365 in let n := n mod 365 in
  let y := y + n100 * 100 + n4 * 4 + n1 in
  if (n1 =? 4) || (n100 =? 4) then (y - 1, 12, 31)
  else
    let leapyear := (n1 =? 3) && (negb (n4 =? 24) || (n100 =? 3)) in
    let m := Z.shiftr (n + 50) 5 in
    let preceding :=
      nth (Z.to_nat m) _DAYS_BEFORE_MONTH 0
      + (if (2 <? m) && leapyear then 1 else 0) in
    if n <? preceding then
      let m := m - 1 in
      let preceding :=
        preceding - (nth (Z.to_nat m) _DAYS_IN_MONTH 0
                     + (if (m =? 2) && leapyear then 1 else 0)) in
      (y, m, n - preceding + 1)
    else (y, m, n - preceding + 1).

Definition _MAXORDINAL : Z := 3652059.

Definition toordinal (t : datetime) : Z := _ymd2ord (year t) (month t) (day t).

(** [t - timedelta(days=n)]: the time of day is kept; a date before
    0001-01-01 or after 9999-12-31 raises [OverflowError]. *)
Definition sub_days (t : datetime) (n : Z) : result datetime :=
  let days := toordinal t - n in
  if (0 <? days) && (days <=? _MAXORDINAL) then
    let '(y, m, d) := _ord2ymd days in
    Ok (mkDatetime y m d (hour t) (minute t) (second t))
  else Raise "date value out of range".

Definition month_names : list string :=
  [""; "January"; "February"; "March"; "April"; "May"; "June"; "July";
   "August"; "September"; "October"; "November"; "December"]%string.

(** Decimal digits of a number that is not negative. *)
Definition dec (z : Z) : string := NilZero.string_of_uint (N.to_uint (Z.to_N z)).

(** Two digits, zero-padded: [%d], [%m], [%H], [%M], [%S]. *)
Definition dec2 (z : Z) : string :=
  if z <? 10 then ("0" ++ dec z)%string else dec z.

(** [t.strftime('%B %d, %Y')] in the C locale (the year in plain decimal:
    four digits from the year 1000 on). *)
Definition strftime_B_d_Y (t : datetime) : string :=
  (nth (Z.to_nat (month t)) month_names "" ++ " " ++ dec2 (day t) ++ ", "
   ++ dec (year t))%string.

(** [t.strftime('%Y%m%d_%H%M%S')] *)
Definition strftime_Ymd_HMS (t : datetime) : string :=
  (dec (year t) ++ dec2 (month t) ++ dec2 (day t) ++ "_"
   ++ dec2 (hour t) ++ dec2 (minute t) ++ dec2 (second t))%string.

End DateTime.

Import DateTime.

(** ** [bs4]: the parsed document and the searches the handler makes *)

Module Bs4.

(** A node of the parse tree: a text node, or an element with its name,
    its [class] attribute (absent, or the list of its tokens) and its
    children in document order. Only the text nodes that [get_text]
    reports are kept. *)
#[warnings="-register-all"]
Inductive node : Type :=
| NavigableString (s : string)
| Tag (name : string) (class_ : option (list string)) (contents : list node).

(** [tag.descendants]: every node below [n], in document order. *)
Fixpoint descendants (n : node) : list node :=
  match n with
  | NavigableString _ => []
  | Tag _ _ cs =>
      (fix go (l : list node) : list node :=
         match l with
         | [] => []
         | c :: r => c :: descendants c ++ go r
         end) cs
  end.

(** [tag.get_text(strip=True)]: each text node below the element is
    stripped, the empty ones are dropped, the rest are concatenated. *)
Definition get_text_strip (n : node) : string :=
  Py.join ""
    (omap (fun d =>
             match d with
             | NavigableString s =>
                 let s := strip s in if str_bool s then Some s else None
             | Tag _ _ _ => None
             end)
          (descendants n)).

(** How a search matches a callable against the [class] attribute: the
    callable sees [None] when the attribute is absent; otherwise it is
    tried on each token, then on the tokens joined by a space. *)
Definition class_matches (f : option string -> bool) (c : option (list string)) : bool :=
  match c with
  | None => f None
  | Some toks => any (fun t => f (Some t)) toks || f (Some (Py.join " " toks))
  end.

Definition name_in (names : list string) (n : node) : bool :=
  match n with
  | NavigableString _ => false
  | Tag nm _ _ => bool_decide (nm ∈ names)
  end.

(** [tag.find_all(names)] *)
Definition find_all (names : list string) (n : node) : list node :=
  List.filter (name_in names) (descendants n).

(** [tag.find_all(names, class_=f)] *)
Definition find_all_class (names : list string) (f : option string -> bool)
    (n : node) : list node :=
  List.filter
    (fun d =>
       match d with
       | NavigableString _ => false
       | Tag nm c _ => bool_decide (nm ∈ names) && class_matches f c
       end)
    (descendants n).

(** [tag.find(name)]: the first match, or [None]. *)
Definition find (name : string) (n : node) : option node :=
  head (find_all [name] n).

End Bs4.

Import Bs4.

(** ** [base64.b64encode(...).decode('utf-8')] *)

Module Base64.

Definition alphabet : string :=
  "ABCDEFGHIJKLMNOPQRSTUVWXYZabcdefghijklmnopqrstuvwxyz0123456789+/".

Definition digit (n : N) : ascii :=
  match String.get (N.to_nat n) alphabet with
  | Some c => c
  | None => "="%char
  end.

Fixpoint b64encode (data : bytes) : string :=
  match data with
  | [] => ""
  | [a] =>
      let a := Byte.to_N a in
      String (digit (N.shiftr a 2))
        (String (digit (N.shiftl (N.land a 3) 4)) "==")
  | [a; b] =>
      let a := Byte.to_N a in
      let b := Byte.to_N b in
      String (digit (N.shiftr a 2))
        (String (digit (N.lor (N.shiftl (N.land a 3) 4) (N.shiftr b 4)))
           (String (digit (N.shiftl (N.land b 15) 2)) "="))
  | a :: b :: c :: r =>
      let a := Byte.to_N a in
      let b := Byte.to_N b in
      let c := Byte.to_N c in
      String (digit (N.shiftr a 2))
        (String (digit (N.lor (N.shiftl (N.land a 3) 4) (N.shiftr b 4)))
           (String (digit (N.lor (N.shiftl (N.land b 15) 2) (N.shiftr c 6)))
              (String (digit (N.land c 63)) (b64encode r))))
  end.

End Base64.

(** ** The outside world, the request state and the handler monad *)

Module Os.

(** An HTTP response as [requests] returns it; [json] is the outcome of
    [response.json()]. *)
Record Response : Type := mkResponse {
  status_code : Z;
  text : string;
  json_ : result json
}.

(** The operations on files that can fail for reasons outside the program. *)
Inductive fs_op : Type :=
| OpenW (path : string)
| WriteTo (path : string)
| Getsize (path : string)
| OpenR (path : string)
| ReadFrom (path : string)
| Remove (path : string).

(** The outside world of one request. *)
Record env : Type := mkEnv {
  OPENAI_API_KEY : string;
  SERPAPI_KEY : option string;
  TEMP_DIR : string;
  (** the successive readings of [datetime.now()] *)
  clock : nat -> datetime;
  (** [requests.get(url, params=params)] *)
  requests_get : string -> option (gmap string json) -> result Response;
  (** [BeautifulSoup(markup, 'html.parser')] *)
  html_parser : string -> result node;
  (** [client.audio.speech.create(model="tts-1", voice="alloy", input=...)]:
      the synthesized audio *)
  speech_create : string -> result bytes;
  (** [client.audio.transcriptions.create(model="whisper-1", file=f)]:
      the text of the transcript *)
  transcriptions_create : bytes -> result string;
  (** a file operation fails with this message *)
  fault : fs_op -> option string
}.

(** Calls that leave the process. *)
Inductive event : Type :=
| HttpGet (url : string) (params : option (gmap string json))
| SpeechCreate (input : string)
| TranscriptionsCreate (file : bytes).

(** What a request changes: the files on disk, the calls made so far and
    the number of clock readings taken. *)
Record state : Type := mkState {
  fs : gmap string bytes;
  trace : list event;
  ticks : nat
}.

(** A computation that may raise and may change the state; the state
    survives an exception. *)
Definition M (A : Type) : Type := state -> result A * state.

Definition ret {A} (a : A) : M A := fun s => (Ok a, s).

Definition raise {A} (e : string) : M A := fun s => (Raise e, s).

Definition bind {A B} (m : M A) (k : A -> M B) : M B :=
  fun s =>
    match m s with
    | (Ok a, s') => k a s'
    | (Raise e, s') => (Raise e, s')
    end.

Definition lift {A} (r : result A) : M A := fun s => (r, s).

(** [try: body / except Exception as e: handler(str(e))] *)
Definition try_except {A} (body : M A) (handler : string -> M A) : M A :=
  fun s =>
    match body s with
    | (Ok a, s') => (Ok a, s')
    | (Raise e, s') => handler e s'
    end.

(** [try: body / finally: final]: [final] runs on every exit of [body],
    a [return] included; an exception of [final] replaces the outcome. *)
Definition try_finally {A} (body : M A) (final : M unit) : M A :=
  fun s =>
    let '(r, s') := body s in
    match final s' with
    | (Ok _, s'') => (r, s'')
    | (Raise e, s'') => (Raise e, s'')
    end.

Definition emit (ev : event) : M unit :=
  fun s => (Ok tt, mkState (fs s) (trace s ++ [ev]) (ticks s)).

Definition set_fs (f : gmap string bytes) : M unit :=
  fun s => (Ok tt, mkState f (trace s) (ticks s)).

Definition get_fs : M (gmap string bytes) := fun s => (Ok (fs s), s).

(** Raise the fault the world has planned for [op], if any. *)
Definition check (e : env) (op : fs_op) : M unit :=
  match fault e op with
  | Some msg => raise msg
  | None => ret tt
  end.

(** [datetime.now()] *)
Definition datetime_now (e : env) : M datetime :=
  fun s => (Ok (clock e (ticks s)), mkState (fs s) (trace s) (S (ticks s))).

(** [os.path.join(a, b)] on POSIX, for a relative [b]. *)
Definition os_path_join (a b : string) : string :=
  match String.rev a with
  | EmptyString => b
  | String c _ => if ascii_dec c "/" then a ++ b else a ++ "/" ++ b
  end.

(** [open(path, 'wb')]: creates the file, or truncates it. *)
Definition open_wb (e : env) (path : string) : M unit :=
  bind (check e (OpenW path)) (fun _ =>
  bind get_fs (fun f => set_fs (<[path := []]> f))).

(** [f.write(data)] followed by the flush of [close]. *)
Definition write (e : env) (path : string) (data : bytes) : M unit :=
  bind (check e (WriteTo path)) (fun _ =>
  bind get_fs (fun f => set_fs (<[path := data]> f))).

(** [os.path.getsize(path)] *)
Definition getsize (e : env) (path : string) : M nat :=
  bind (check e (Getsize path)) (fun _ =>
  bind get_fs (fun f =>
    match f !! path with
    | Some data => ret (length data)
    | None => raise ("[Errno 2] No such file or directory: '" ++ path ++ "'")
    end)).

(** [open(path, 'rb')] then [f.read()] *)
Definition open_rb (e : env) (path : string) : M unit :=
  bind (check e (OpenR path)) (fun _ =>
  bind get_fs (fun f =>
    match f !! path with
    | Some _ => ret tt
    | None => raise ("[Errno 2] No such file or directory: '" ++ path ++ "'")
    end)).

Definition read (e : env) (path : string) : M bytes :=
  bind (check e (ReadFrom path)) (fun _ =>
  bind get_fs (fun f =>
    match f !! path with
    | Some data => ret data
    | None => raise "I/O operation on closed file"
    end)).

(** [os.path.exists(path)] *)
Definition exists_ (path : string) : M bool :=
  bind get_fs (fun f => ret (bool_decide (is_Some (f !! path)))).

(** [os.remove(path)] *)
Definition remove (e : env) (path : string) : M unit :=
  bind (check e (Remove path)) (fun _ =>
  bind get_fs (fun f =>
    match f !! path with
    | Some _ => set_fs (delete path f)
    | None => raise ("[Errno 2] No such file or directory: '" ++ path ++ "'")
    end)).

(** [requests.get(url, params=params)] *)
Definition get (e : env) (url : string) (params : option (gmap string json)) : M Response :=
  bind (emit (HttpGet url params)) (fun _ => lift (requests_get e url params)).

End Os.

Import Os.

Notation "'let*' x ':=' m 'in' k" := (bind m (fun x => k))
  (at level 10, x pattern, m at level 100, k at level 200) : py_scope.
Notation "'exec' m 'in' k" := (bind m (fun _ => k))
  (at level 10, m at level 100, k at level 200) : py_scope.

(** ** [fastapi]: what a handler receives and returns *)

Module Fastapi.

(** [JSONResponse(status_code=..., content={...})]; the content of every
    response of this program is a flat dictionary of strings. Building the
    response encodes the content to UTF-8; that cannot fail on the strings
    of this development (code points below U+0100), so the constructor is
    total here. A [str] with a lone surrogate, which Python allows, makes it
    raise in the source: no statement below speaks for such strings. *)
Record JSONResponse : Type := mkJSONResponse {
  status_code : Z;
  content : gmap string string
}.

(** An uploaded file: the outcome of [await file.read()]. *)
Record UploadFile : Type := mkUploadFile {
  file_read : result bytes
}.

End Fastapi.

Import Fastapi.

(** ** The handlers of [server.py] *)

Module Server.

(** The line feed of ["\n"]. *)
Definition LF : string := String (ascii_of_nat 10) EmptyString.

(** *** POST /api/transcribe *)

(** The [finally] block of the transcription step. *)
Definition clean_up (e : env) (temp_path : string) : M unit :=
  try_except
    (let* present := exists_ temp_path in
     if present then remove e temp_path else ret tt)
    (fun _ => ret tt).

(** The name of the file that receives the upload, from a clock reading. *)
Definition temp_path_of (e : env) (now : datetime) : string :=
  os_path_join (TEMP_DIR e) ("temp_audio_" ++ strftime_Ymd_HMS now ++ ".wav").

Definition transcribe_audio (e : env) (file : UploadFile) : M JSONResponse :=
  try_except
    (let* now := datetime_now e in
     let temp_path := temp_path_of e now in
     (* first [try]: save the upload *)
     let* saved :=
       try_except
         (exec open_wb e temp_path in
          let* content := lift (file_read file) in
          exec (match content with
                | [] => raise "Empty file received"
                | _ => ret tt
                end) in
          exec write e temp_path content in
          let* file_size := getsize e temp_path in
          exec (if Nat.eqb file_size 0 then raise "File is empty" else ret tt) in
          ret None)
         (fun err =>
            ret (Some (mkJSONResponse 500
                         {[ "error" := "Error saving file: " ++ err ]})))
     in
     match saved with
     | Some response => ret response
     | None =>
         (* second [try]: transcribe, with the clean-up in [finally] *)
         let* outcome :=
           try_finally
             (try_except
                (exec open_rb e temp_path in
                 let* f := read e temp_path in
                 exec emit (TranscriptionsCreate f) in
                 let* transcript := lift (transcriptions_create e f) in
                 ret (inr transcript))
                (fun err =>
                   ret (inl (mkJSONResponse 500
                               {[ "error" := "Error during transcription: " ++ err ]}))))
             (clean_up e temp_path)
         in
         match outcome with
         | inl response => ret response
         | inr transcript => ret (mkJSONResponse 200 {[ "text" := transcript ]})
         end
     end)
    (fun err =>
       ret (mkJSONResponse 500 {[ "error" := "Unexpected error: " ++ err ]})).

(** *** POST /api/search *)

(** [(datetime.now() - timedelta(days=1)).strftime('%B %d, %Y')] *)
Definition yesterday_of (e : env) : M string :=
  let* now := datetime_now e in
  let* y := lift (sub_days now 1) in
  ret (strftime_B_d_Y y).

Definition search_query_of (yesterday : string) : string :=
  "cricket match results " ++ yesterday ++ " scorecard highlights".

(** The [params] dictionary of the search-provider request. *)
Definition serp_params (e : env) (search_query : string) : gmap string json :=
  {[ "api_key" := match SERPAPI_KEY e with Some k => JStr k | None => JNull end;
     "q" := JStr search_query;
     "engine" := JStr "google";
     "num" := JInt 5 ]}.

(** ['organic_results' in results and results['organic_results']], as the
    [if] sees it. *)
Definition has_organic_results (results : json) : result bool :=
  let+ present := contains "organic_results" results in
  if present then
    let+ v := getitem "organic_results" results in Ok (truthy v)
  else Ok false.

(** The loop [for result in results['organic_results'][:3]] on the rest
    [rs] of the slice, with [cricket_info] as collected so far. *)
Fixpoint collect_snippets (rs : list json) (cricket_info : list json) : result (list json) :=
  match rs with
  | [] => Ok cricket_info
  | result :: rest =>
      let+ has := contains "snippet" result in
      if has then
        let+ snippet := getitem "snippet" result in
        collect_snippets rest (cricket_info ++ [snippet])%list
      else collect_snippets rest cricket_info
  end.

Definition top3_snippets (results : json) : result (list json) :=
  let+ organic := getitem "organic_results" results in
  let+ top := slice_to 3 organic in
  collect_snippets top [].

Definition here_are (yesterday : string) (cricket_info : list json) : result string :=
  let+ joined := Json.join (LF ++ LF) cricket_info in
  Ok ("Here are the cricket results from " ++ yesterday ++ ":" ++ LF ++ LF ++ joined).

Definition serpapi_url : string := "https://serpapi.com/search".
Definition sena_url : string := "https://sena.services".

(** The body of the [try] of the cricket branch. *)
Definition serp_lookup (e : env) (yesterday : string) : M string :=
  let search_query := search_query_of yesterday in
  let params := serp_params e search_query in
  let* response := get e serpapi_url (Some params) in
  let* results := lift (json_ response) in
  let* organic := lift (has_organic_results results) in
  if organic then
    let* cricket_info := lift (top3_snippets results) in
    match cricket_info with
    | _ :: _ => lift (here_are yesterday cricket_info)
    | [] =>
        ret ("No detailed cricket results found for " ++ yesterday
             ++ ". Please try searching for a different date.")
    end
  else
    ret ("No cricket results found for " ++ yesterday
         ++ ". Please try searching for a different date.").

Definition unable_to_fetch : string :=
  "Unable to fetch cricket results. Please try again later.".

(** The branch [if is_cricket_query:]. *)
Definition cricket_branch (e : env) : M string :=
  let* yesterday := yesterday_of e in
  try_except (serp_lookup e yesterday) (fun serp_error => ret unable_to_fetch).

(** The callable given as [class_]:
    [lambda x: x and ('service' in x.lower() or 'services' in x.lower())]. *)
Definition service_class (x : option string) : bool :=
  match x with
  | None => false
  | Some x =>
      str_bool x && (str_in "service" (lower x) || str_in "services" (lower x))
  end.

(** The first loop nest: service items of the service sections. *)
Definition structured_services (soup : node) : list string :=
  let service_sections := find_all_class ["section"; "div"] service_class soup in
  fold_left
    (fun services section =>
       let service_items := find_all ["h2"; "h3"; "li"; "p"] section in
       fold_left
         (fun services item =>
            let text := get_text_strip item in
            if str_bool text && (10 <? String.length text)%nat
            then (services ++ [text])%list else services)
         service_items services)
    service_sections [].

(** [soup.find('main') or soup.find('article') or soup.find('body')];
    a [Tag] is always true. *)
Definition main_content_of (soup : node) : option node :=
  match find "main" soup with
  | Some t => Some t
  | None =>
      match find "article" soup with
      | Some t => Some t
      | None => find "body" soup
      end
  end.

(** The second loop: paragraphs of the main content. *)
Definition main_content_services (soup : node) (services : list string) : list string :=
  match main_content_of soup with
  | Some main_content =>
      let paragraphs := find_all ["p"] main_content in
      fold_left
        (fun services p =>
           let text := get_text_strip p in
           if str_bool text && (20 <? String.length text)%nat
              && (str_in "service" (lower text) || str_in "offer" (lower text))
           then (services ++ [text])%list else services)
        paragraphs services
  | None => services
  end.

Definition default_services : list string :=
  ["Web Development"; "Mobile App Development"; "Cloud Services";
   "AI and Machine Learning"; "Digital Marketing"; "IT Consulting"].

(** The value of [services] when the list is formatted. *)
Definition extract_services (soup : node) : list string :=
  let services := structured_services soup in
  let services :=
    match services with
    | [] => main_content_services soup services
    | _ => services
    end in
  match services with
  | [] => default_services
  | _ => services
  end.

Definition format_services (services : list string) : string :=
  let services_list := Py.join LF (map (fun service => "- " ++ service) services) in
  "Sena provides the following services:" ++ LF ++ services_list ++ LF ++ LF
  ++ "For more detailed information, please visit https://sena.services directly.".

Definition unable_at_the_moment : string :=
  "Unable to access sena.services at the moment. Please try again later or visit the website directly.".

(** The [else:] of the status test: the search provider is asked instead. *)
Definition fallback_branch (e : env) : M string :=
  let* yesterday := yesterday_of e in
  let search_query := search_query_of yesterday in
  let params := serp_params e search_query in
  let* response := get e serpapi_url (Some params) in
  let* results := lift (json_ response) in
  let* organic := lift (has_organic_results results) in
  if organic then
    let* cricket_info := lift (top3_snippets results) in
    match cricket_info with
    | _ :: _ => lift (here_are yesterday cricket_info)
    | [] => ret unable_at_the_moment
    end
  else ret unable_at_the_moment.

(** The body of the [try] of the other branch. *)
Definition sena_lookup (e : env) : M string :=
  let* response := get e sena_url None in
  if (Os.status_code response =? 200)%Z then
    let* soup := lift (html_parser e (text response)) in
    ret (format_services (extract_services soup))
  else fallback_branch e.

Definition unable_to_access : string :=
  "Unable to access sena.services. Please try again later or visit the website directly.".

(** The branch [else:] of [if is_cricket_query:]. *)
Definition sena_branch (e : env) : M string :=
  try_except (sena_lookup e) (fun err => ret unable_to_access).

(** [speech_response.stream_to_file(path)] *)
Definition stream_to_file (e : env) (audio : bytes) (path : string) : M unit :=
  exec open_wb e path in write e path audio.

(** The name of the file that receives the speech, from a clock reading. *)
Definition temp_audio_path_of (e : env) (now : datetime) : string :=
  os_path_join (TEMP_DIR e) ("response_" ++ strftime_Ymd_HMS now ++ ".mp3").

Definition failed_audio : string := "Failed to generate audio response".

(** The body of the last [try] of [search]: text to speech. *)
Definition synthesize (e : env) (response_text : string) : M JSONResponse :=
  exec emit (SpeechCreate response_text) in
  let* speech_response := lift (speech_create e response_text) in
  let* now := datetime_now e in
  let temp_audio_path := temp_audio_path_of e now in
  exec stream_to_file e speech_response temp_audio_path in
  exec open_rb e temp_audio_path in
  let* audio_data := read e temp_audio_path in
  let audio_base64 := Base64.b64encode audio_data in
  exec remove e temp_audio_path in
  ret (mkJSONResponse 200
         {[ "text" := response_text; "audio" := audio_base64 ]}).

Definition text_to_speech (e : env) (response_text : string) : M JSONResponse :=
  try_except (synthesize e response_text)
    (fun err =>
       ret (mkJSONResponse 200
              {[ "text" := response_text; "error" := failed_audio ]})).

(** The value of [response_text] when the speech step starts. *)
Definition response_text_of (e : env) (request_query : string) : M string :=
  let query := lower request_query in
  if Classifier.is_cricket_query query then cricket_branch e else sena_branch e.

Definition search (e : env) (request_query : string) : M JSONResponse :=
  try_except
    (let* response_text := response_text_of e request_query in
     text_to_speech e response_text)
    (fun err =>
       ret (mkJSONResponse 500 {[ "error" := "Unexpected error: " ++ err ]})).

End Server.

Import Server.

(** ** The properties, in the words of the specification *)

Module Spec.

(** [kw] occurs in [s] as a substring. *)
Definition substring_of (kw s : string) : Prop :=
  exists pre post, s = pre ++ kw ++ post.

(** [s] contains [kw] up to the case of letters. *)
Definition contains_nocase (kw s : string) : Prop :=
  exists pre u post, s = pre ++ u ++ post /\ lower u = lower kw.

(** The snippet of one organic result of the search provider. *)
Definition snippet_of (r : json) : option string :=
  match r with
  | JDict d =>
      match d !! "snippet" with
      | Some (JStr s) => Some s
      | _ => None
      end
  | _ => None
  end.

(** An organic result as the provider documents it: an object whose
    snippet, when it has one, is a string. *)
Definition organic_result (r : json) : Prop :=
  exists d, r = JDict d /\
    (d !! "snippet" = None \/ exists s, d !! "snippet" = Some (JStr s)).

(** The snippets the answer uses: those of the first three results. *)
Definition used_snippets (organic : list json) : list string :=
  omap snippet_of (take 3 organic).

(** The text of the sports path for a date and a list of organic results. *)
Definition sports_text (date : string) (organic : list json) : string :=
  match organic with
  | [] =>
      "No cricket results found for " ++ date
      ++ ". Please try searching for a different date."
  | _ :: _ =>
      match used_snippets organic with
      | [] =>
          "No detailed cricket results found for " ++ date
          ++ ". Please try searching for a different date."
      | snippets =>
          "Here are the cricket results from " ++ date ++ ":" ++ LF ++ LF
          ++ Py.join (LF ++ LF) snippets
      end
  end.

(** The class attribute names a service: its value contains "service"
    (hence also when it contains "services"), whatever the case. *)
Definition names_service (class_ : option (list string)) : bool :=
  match class_ with
  | Some toks => str_in "service" (lower (Py.join " " toks))
  | None => false
  end.

(** A service container: a section or a div whose class names a service. *)
Definition is_container (n : node) : bool :=
  match n with
  | Tag nm c _ => bool_decide (nm ∈ ["section"; "div"]) && names_service c
  | NavigableString _ => false
  end.

Definition is_element (names : list string) (n : node) : bool :=
  match n with
  | Tag nm _ _ => bool_decide (nm ∈ names)
  | NavigableString _ => false
  end.

(** Layer (a): in every service container (section or div), the texts
    longer than 10 characters of the h2 and h3 headings, the list items and
    the paragraphs. *)
Definition layer_a (soup : node) : list string :=
  flat_map
    (fun container =>
       List.filter (fun t => (10 <? String.length t)%nat)
         (map get_text_strip
            (List.filter (is_element ["h2"; "h3"; "li"; "p"])
               (descendants container))))
    (List.filter is_container (descendants soup)).

Definition first_element (name : string) (soup : node) : option node :=
  head (List.filter (is_element [name]) (descendants soup)).

(** Layer (b): in the main, else article, else body container, the
    paragraphs longer than 20 characters that mention a service or an
    offer. *)
Definition layer_b (soup : node) : list string :=
  match first_element "main" soup ∪ first_element "article" soup
        ∪ first_element "body" soup with
  | Some container =>
      List.filter
        (fun t => (20 <? String.length t)%nat
                  && (str_in "service" (lower t) || str_in "offer" (lower t)))
        (map get_text_strip
           (List.filter (is_element ["p"]) (descendants container)))
  | None => []
  end.






(** The endpoint answers the query with HTTP success and the text [t]. *)
Definition answers (e : env) (request_query : string) (s : state) (t : string) : Prop :=
  exists response s',
    search e request_query s = (Ok response, s')
    /\ Fastapi.status_code response = 200%Z
    /\ content response !! "text" = Some t.

(** [date] is the long form of the day before the next clock reading. *)
Definition yesterday_is (e : env) (s : state) (date : string) : Prop :=
  exists y, sub_days (clock e (ticks s)) 1 = Ok y /\ date = strftime_B_d_Y y.

(** The search provider, asked for the results of [date], sends the
    document [results]. *)
Definition provider_sends (e : env) (date : string) (results : json) : Prop :=
  exists response,
    requests_get e serpapi_url (Some (serp_params e (search_query_of date)))
    = Ok response
    /\ json_ response = Ok results.

(** The call to the search provider raises: the request itself, or the
    decoding of a malformed body. *)
Definition provider_fails (e : env) (date : string) : Prop :=
  let request :=
    requests_get e serpapi_url (Some (serp_params e (search_query_of date))) in
  (exists err, request = Raise err)
  \/ (exists response err, request = Ok response /\ json_ response = Raise err).

(** The provider's document has a snippet to show, and [t] is the text
    made of the snippets of its first three results. *)
Definition usable_snippets (date : string) (results : json) (t : string) : Prop :=
  has_organic_results results = Ok true
  /\ exists c cs, top3_snippets results = Ok (c :: cs)
                  /\ here_are date (c :: cs) = Ok t.

(** The provider's document has no organic result, or none of the first
    three has a snippet. *)
Definition no_usable_snippets (results : json) : Prop :=
  has_organic_results results = Ok false
  \/ (has_organic_results results = Ok true /\ top3_snippets results = Ok []).

(** The fixed site answers with the status [code]. *)
Definition site_status (e : env) (code : Z) : Prop :=
  exists response,
    requests_get e sena_url None = Ok response
    /\ Os.status_code response = code.

(** The fetch of the fixed site raises, or the parse of its page does. *)
Definition site_fails (e : env) : Prop :=
  (exists err, requests_get e sena_url None = Raise err)
  \/ (exists response err,
        requests_get e sena_url None = Ok response
        /\ Os.status_code response = 200%Z
        /\ html_parser e (text response) = Raise err).

(** The file operations of the speech step on its temporary file. *)
Definition speech_file_ops (path : string) : list fs_op :=
  [OpenW path; WriteTo path; OpenR path; ReadFrom path; Remove path].

(** Speech synthesis fails, or one of the file operations after it. *)
Definition speech_fails (e : env) (response_text : string) (s : state) : Prop :=
  (exists err, speech_create e response_text = Raise err)
  \/ (exists op, op ∈ speech_file_ops (temp_audio_path_of e (clock e (ticks s)))
                 /\ is_Some (fault e op)).

End Spec.

Import Spec.

(** ** Sample worlds and requests *)

Module Examples.

(** The clock reads 1 March 2024, 12:00:00: yesterday is a leap day. *)
Definition noon : datetime := mkDatetime 2024 3 1 12 0 0.

Definition no_fault : fs_op -> option string := fun _ => None.

(** A world given by what the fixed site, the search provider, the HTML
    parser and the speech provider do, and by the faults of the disk. *)
Definition world (site provider : result Response) (page : result node)
    (speech : result bytes) (faults : fs_op -> option string) : env :=
  mkEnv "sk-test" (Some "serp-test") "/tmp" (fun _ => noon)
    (fun url _ => if String.eqb url sena_url then site else provider)
    (fun _ => page) (fun _ => speech) (fun _ => Ok "hello") faults.

(** The state before the request: an empty disk, no call made. *)
Definition boot : state := mkState ∅ [] 0.

Definition with_snippet (s : string) : json :=
  JDict {[ "title" := JStr "Scorecard"; "snippet" := JStr s ]}.

Definition without_snippet : json :=
  JDict {[ "title" := JStr "Scorecard" ]}.

Definition organic_doc (l : list json) : gmap string json :=
  {[ "organic_results" := JList l ]}.

Definition http_ok (body : json) : result Response :=
  Ok (mkResponse 200 "" (Ok body)).

Definition site_up : result Response :=
  Ok (mkResponse 200 "<html></html>" (Raise "Expecting value")).

Definition site_down : result Response :=
  Ok (mkResponse 503 "Service Unavailable" (Raise "Expecting value")).

Definition empty_page : node := Tag "[document]" None [].

(** A page with a service section: a long item, a short one, and one
    whose text is spread over nested nodes. *)
Definition services_page : node :=
  Tag "[document]" None
    [Tag "html" None
       [Tag "body" None
          [Tag "div" (Some ["Our-Services"; "wide"])
             [Tag "ul" None
                [Tag "li" None [NavigableString "  Web design and more  "];
                 Tag "li" None [NavigableString "short"];
                 Tag "li" None
                   [NavigableString "Cloud ";
                    Tag "b" None [NavigableString " hosting"]]]]]]].

(** A page without a service section, with one paragraph that mentions
    an offer. *)
Definition offers_page : node :=
  Tag "[document]" None
    [Tag "html" None
       [Tag "body" None
          [Tag "p" None [NavigableString "We offer many great things to you"];
           Tag "p" None [NavigableString "Nothing to see in this paragraph"]]]].

Definition some_audio : bytes := [Byte.x4d; Byte.x61; Byte.x6e].

Definition top5 : list json :=
  [with_snippet "India won by 5 wickets"; without_snippet;
   with_snippet "Australia all out for 180"; with_snippet "Rain stopped play";
   with_snippet "A draw at Lord's"].

(** All is well: the provider has five results. *)
Definition fair : env :=
  world site_up (http_ok (JDict (organic_doc top5))) (Ok services_page)
    (Ok some_audio) no_fault.

(** The site is down and the provider has results. *)
Definition down : env :=
  world site_down (http_ok (JDict (organic_doc top5))) (Ok empty_page)
    (Ok some_audio) no_fault.

(** The site is down and the provider has nothing. *)
Definition silent : env :=
  world site_down (http_ok (JDict ∅)) (Ok empty_page) (Ok some_audio) no_fault.

(** The site is down and the provider's results have no snippet. *)
Definition terse : env :=
  world site_down (http_ok (JDict (organic_doc [without_snippet])))
    (Ok empty_page) (Ok some_audio) no_fault.

(** The provider cannot be reached and the page cannot be parsed. *)
Definition broken : env :=
  world site_up (Raise "Connection refused") (Raise "cannot parse")
    (Ok some_audio) no_fault.

(** The speech provider refuses. *)
Definition mute : env :=
  world site_up (http_ok (JDict (organic_doc top5))) (Ok services_page)
    (Raise "insufficient_quota") no_fault.

(** The disk is full: no write succeeds. *)
Definition full_disk : env :=
  world site_up (http_ok (JDict (organic_doc top5))) (Ok services_page)
    (Ok some_audio)
    (fun op => match op with
               | WriteTo _ => Some "[Errno 28] No space left on device"
               | _ => None
               end).

End Examples.

Import Examples.

(** ** Further notions for the properties of the handlers *)

Module Props.

(** The file operations of the save and transcription steps on the
    temporary file of an upload. *)
Definition upload_file_ops (path : string) : list fs_op :=
  [OpenW path; WriteTo path; Getsize path; OpenR path; ReadFrom path].

(** None of the operations is going to fail. *)
Definition healthy (e : env) (ops : list fs_op) : Prop :=
  forall op, op ∈ ops -> fault e op = None.

(** The response of the transcription endpoint that follows the outcome
    of the provider. *)
Definition transcription_response (outcome : result string) : JSONResponse :=
  match outcome with
  | Ok t => mkJSONResponse 200 {[ "text" := t ]}
  | Raise err =>
      mkJSONResponse 500 {[ "error" := "Error during transcription: " ++ err ]}
  end.

(** The save step fails with the message [msg]: at the opening of the
    temporary file, at the reading of the upload, at the writing, or at the
    reading of the size, whichever comes first. *)
Definition save_fails (e : env) (file : UploadFile) (path : string)
    (msg : string) : Prop :=
  fault e (OpenW path) = Some msg
  \/ (fault e (OpenW path) = None
      /\ (file_read file = Raise msg
          \/ exists b bs,
               file_read file = Ok (b :: bs)
               /\ (fault e (WriteTo path) = Some msg
                   \/ (fault e (WriteTo path) = None
                       /\ fault e (Getsize path) = Some msg)))).

(** The value under "snippet" of an organic result that is an object. *)
Definition raw_snippet (r : json) : option json :=
  match r with
  | JDict d => d !! "snippet"
  | _ => None
  end.

Definition is_object (r : json) : Prop := exists d, r = JDict d.

Definition is_text (v : json) : Prop := exists s, v = JStr s.

(** The two messages of the sports path without results. *)
Definition no_results_for (date : string) : string :=
  "No cricket results found for " ++ date
  ++ ". Please try searching for a different date.".

Definition no_detailed_results_for (date : string) : string :=
  "No detailed cricket results found for " ++ date
  ++ ". Please try searching for a different date.".

(** The fixed site answers with status 200 and its page parses to [soup]. *)
Definition site_page (e : env) (soup : node) : Prop :=
  exists response,
    requests_get e sena_url None = Ok response
    /\ Os.status_code response = 200%Z
    /\ html_parser e (text response) = Ok soup.

(** Pieces of pages. *)
Definition document (body : list node) : node := Tag "[document]" None body.

Definition li (t : string) : node := Tag "li" None [NavigableString t].

(** A div with the given class tokens around a list of items. *)
Definition services_list (class_ : list string) (items : list string) : node :=
  Tag "div" (Some class_) [Tag "ul" None (li <$> items)].

(** The same, inside a section with class tokens of its own. *)
Definition nested_services_list (outer inner : list string)
    (items : list string) : node :=
  Tag "section" (Some outer) [services_list inner items].

End Props.

Import Props.

(** ** More sample worlds *)

Module Samples.

(** The world [e] with another transcription provider. *)
Definition with_transcriber (e : env) (f : bytes -> result string) : env :=
  mkEnv (OPENAI_API_KEY e) (SERPAPI_KEY e) (TEMP_DIR e) (clock e)
    (requests_get e) (html_parser e) (speech_create e) f (fault e).

(** The world [e] with other faults of the disk. *)
Definition with_faults (e : env) (faults : fs_op -> option string) : env :=
  mkEnv (OPENAI_API_KEY e) (SERPAPI_KEY e) (TEMP_DIR e) (clock e)
    (requests_get e) (html_parser e) (speech_create e)
    (transcriptions_create e) faults.

(** The transcription provider refuses. *)
Definition deaf : env :=
  with_transcriber fair (fun _ => Raise "insufficient_quota").

(** No file can be removed. *)
Definition sticky : env :=
  with_faults fair
    (fun op => match op with
               | Remove _ => Some "[Errno 16] Device or resource busy"
               | _ => None
               end).

Definition recording : UploadFile := mkUploadFile (Ok some_audio).

(** The first result has a number where its snippet should be. *)
Definition odd_results : list json :=
  [JDict {[ "snippet" := JInt 3 ]}; with_snippet "India won by 5 wickets"].

Definition odd : env :=
  world site_up (http_ok (JDict (organic_doc odd_results))) (Ok services_page)
    (Ok some_audio) no_fault.

(** The same first three results as [top5], then another one. *)
Definition top4 : list json :=
  [with_snippet "India won by 5 wickets"; without_snippet;
   with_snippet "Australia all out for 180"; with_snippet "Late news"].

Definition fair4 : env :=
  world site_up (http_ok (JDict (organic_doc top4))) (Ok services_page)
    (Ok some_audio) no_fault.

Definition three_items : list string :=
  ["  Web design and more  "; "Cloud hosting plans"; "Search engine marketing"].

(** The world [e] with another clock. *)
Definition with_clock (e : env) (c : nat -> datetime) : env :=
  mkEnv (OPENAI_API_KEY e) (SERPAPI_KEY e) (TEMP_DIR e) c
    (requests_get e) (html_parser e) (speech_create e)
    (transcriptions_create e) (fault e).

(** The site is down and the clock reads the first day of the calendar. *)
Definition dawn : env := with_clock down (fun _ => mkDatetime 1 1 1 0 0 0).



End Samples.

Import Samples.

(** * Verification *)

Import Classifier.

(** ** Strings *)

Lemma app_cons (x : ascii) (a b : string) : String x a ++ b = String x (a ++ b).
Proof. reflexivity. Qed.

Lemma app_empty (b : string) : "" ++ b = b.
Proof. reflexivity. Qed.

Lemma app_assoc_str (a b c : string) : (a ++ b) ++ c = a ++ b ++ c.
Proof.
  induction a as [|x a IH]; [reflexivity |].
  rewrite !app_cons. f_equal. exact IH.
Qed.

Lemma lower_app (a b : string) : lower (a ++ b) = lower a ++ lower b.
Proof.
  induction a as [|x a IH]; [reflexivity |].
  rewrite app_cons. cbn [lower]. rewrite app_cons. f_equal. exact IH.
Qed.

Lemma startswith_spec (p s : string) :
  startswith p s = true <-> exists post, s = p ++ post.
Proof.
  revert s; induction p as [|a p IH]; intros s; cbn [startswith].
  - split; [intros _; now exists s | reflexivity].
  - destruct s as [|b s].
    + split; [discriminate | intros [post H]; discriminate].
    + destruct (ascii_dec a b) as [->|Hne].
      * rewrite IH. split; intros [post H]; exists post.
        -- rewrite app_cons. now rewrite H.
        -- rewrite app_cons in H. now injection H.
      * split; [discriminate |].
        intros [post H]. rewrite app_cons in H. injection H; congruence.
Qed.

Lemma str_in_spec (needle hay : string) :
  str_in needle hay = true <-> substring_of needle hay.
Proof.
  unfold substring_of. induction hay as [|c hay IH].
  - cbn [str_in]. rewrite orb_false_r, startswith_spec. split.
    + intros [post H]. now exists "", post.
    + intros [[|x pre] [post H]]; [now exists post | discriminate].
  - cbn [str_in]. rewrite orb_true_iff, startswith_spec, IH. split.
    + intros [[post H] | (pre & post & H)].
      * now exists "", post.
      * exists (String c pre), post. rewrite app_cons. now rewrite H.
    + intros ([|x pre] & post & H).
      * left. now exists post.
      * right. exists pre, post. rewrite app_cons in H. now injection H.
Qed.

Lemma any_spec {A} (f : A -> bool) (l : list A) :
  any f l = true <-> exists x, x ∈ l /\ f x = true.
Proof.
  induction l as [|a l IH]; simpl.
  - split; [discriminate | intros (x & Hx & _); inversion Hx].
  - rewrite orb_true_iff, IH. split.
    + intros [H | (x & Hx & H)]; [exists a | exists x]; split; auto; constructor; auto.
    + intros (x & Hx & H). inversion Hx; subst; [now left | right; eauto].
Qed.

Lemma substring_of_trans (a b c : string) :
  substring_of a b -> substring_of b c -> substring_of a c.
Proof.
  intros (p1 & q1 & ->) (p2 & q2 & ->).
  exists (p2 ++ p1), (q1 ++ q2). now rewrite !app_assoc_str.
Qed.

Lemma keyword_lower (keyword : string) :
  keyword ∈ cricket_keywords -> lower keyword = keyword.
Proof.
  unfold cricket_keywords. intros H.
  repeat (apply elem_of_cons in H as [-> | H]; [reflexivity |]).
  inversion H.
Qed.

(** Claim C5. The classifier lowercases the query and takes the sports
    path exactly when one of the six keywords cricket, sports, match, game,
    wicket, yesterday occurs in the lowercased query as a substring; hence
    every query that contains a keyword, in any mix of upper and lower case,
    is classified as a sports query. The last part ties the classification
    to the branch that [search] runs. *)
Theorem classify_iff_keyword_occurs (e : env) (request_query : string) :
  (classify request_query = true <->
     exists keyword, keyword ∈ cricket_keywords
                     /\ substring_of keyword (lower request_query))
  /\ (forall keyword, keyword ∈ cricket_keywords ->
        contains_nocase keyword request_query -> classify request_query = true)
  /\ response_text_of e request_query =
       if classify request_query then cricket_branch e else sena_branch e.
Proof.
  assert (Hiff : classify request_query = true <->
     exists keyword, keyword ∈ cricket_keywords
                     /\ substring_of keyword (lower request_query)).
  { unfold classify, is_cricket_query. rewrite any_spec.
    split; intros (k & Hk & H); exists k; (split; [exact Hk |]);
      now apply str_in_spec. }
  split; [exact Hiff | split].
  - intros keyword Hk (pre & u & post & -> & Hu).
    apply Hiff. exists keyword. split; [exact Hk |].
    exists (lower pre), (lower post).
    rewrite !lower_app, Hu. now rewrite (keyword_lower _ Hk).
  - reflexivity.
Qed.

(** ** Extraction from the parsed page *)

Lemma substring_of_lower (a b : string) :
  substring_of a b -> substring_of (lower a) (lower b).
Proof.
  intros (pre & post & ->). exists (lower pre), (lower post).
  now rewrite !lower_app.
Qed.

Lemma app_empty_r (x : string) : x ++ "" = x.
Proof.
  induction x as [|c x IH]; [reflexivity |]. rewrite app_cons. now rewrite IH.
Qed.

Lemma join_cons (sep x : string) (l : list string) :
  substring_of x (Py.join sep (x :: l))
  /\ (forall y, substring_of y (Py.join sep l) ->
                substring_of y (Py.join sep (x :: l))).
Proof.
  destruct l as [|z l]; cbn [Py.join].
  - split.
    + exists "", "". now rewrite app_empty, app_empty_r.
    + intros y (pre & post & H).
      destruct pre; [| discriminate]. destruct y; [| discriminate].
      now exists "", x.
  - split.
    + now exists "", (sep ++ Py.join sep (z :: l)).
    + intros y (pre & post & ->).
      exists (x ++ sep ++ pre), post. now rewrite !app_assoc_str.
Qed.

Lemma substring_of_join (sep t : string) (l : list string) :
  t ∈ l -> substring_of t (Py.join sep l).
Proof.
  induction l as [|x l IH]; intros H; [inversion H |].
  apply elem_of_cons in H as [-> | H].
  - exact (proj1 (join_cons sep x l)).
  - apply (proj2 (join_cons sep x l)). auto.
Qed.

Lemma services_implies_service (x : string) :
  str_in "services" x = true -> str_in "service" x = true.
Proof.
  rewrite !str_in_spec. intros H.
  apply (substring_of_trans _ "services"); [| exact H].
  now exists "", "s".
Qed.

Lemma service_class_some (x : string) :
  service_class (Some x) = str_in "service" (lower x).
Proof.
  unfold service_class. destruct x as [|c x]; [reflexivity |].
  cbn [str_bool andb].
  destruct (str_in "service" (lower (String c x))) eqn:E; [reflexivity |].
  destruct (str_in "services" (lower (String c x))) eqn:E'; [| reflexivity].
  apply services_implies_service in E'. congruence.
Qed.

Lemma class_matches_names_service (c : option (list string)) :
  class_matches service_class c = names_service c.
Proof.
  destruct c as [toks|]; [| reflexivity].
  unfold class_matches, names_service. rewrite service_class_some.
  destruct (str_in "service" (lower (Py.join " " toks))) eqn:E;
    [apply orb_true_r |].
  rewrite orb_false_r. apply not_true_is_false. intros H.
  apply any_spec in H as (t & Ht & H). rewrite service_class_some in H.
  apply str_in_spec in H.
  assert (str_in "service" (lower (Py.join " " toks)) = true); [| congruence].
  apply str_in_spec. eapply substring_of_trans; [exact H |].
  apply substring_of_lower, substring_of_join, Ht.
Qed.

Lemma find_all_class_containers (soup : node) :
  find_all_class ["section"; "div"] service_class soup
  = List.filter is_container (descendants soup).
Proof.
  unfold find_all_class. apply List.filter_ext. intros [s | nm c cs]; [reflexivity |].
  cbn [is_container]. now rewrite class_matches_names_service.
Qed.

Lemma find_all_elements (names : list string) (n : node) :
  find_all names n = List.filter (is_element names) (descendants n).
Proof.
  unfold find_all. apply List.filter_ext. now intros [s | nm c cs].
Qed.

(** A loop that appends the texts that pass a test is a filter. *)
Lemma fold_left_collect {A} (g : A -> string) (keep : string -> bool)
    (l : list A) (acc : list string) :
  fold_left (fun services x =>
               let text := g x in
               if keep text then (services ++ [text])%list else services) l acc
  = (acc ++ List.filter keep (map g l))%list.
Proof.
  revert acc; induction l as [|x l IH]; intros acc; cbn [fold_left map List.filter].
  - now rewrite app_nil_r.
  - rewrite IH. destruct (keep (g x)); [| reflexivity].
    now rewrite <- app_assoc.
Qed.

Lemma fold_left_nested {A B} (items : A -> list B) (g : B -> string)
    (keep : string -> bool) (l : list A) (acc : list string) :
  fold_left (fun services section =>
               fold_left (fun services x =>
                            let text := g x in
                            if keep text then (services ++ [text])%list else services)
                         (items section) services) l acc
  = (acc ++ flat_map (fun section => List.filter keep (map g (items section))) l)%list.
Proof.
  revert acc; induction l as [|x l IH]; intros acc; cbn [fold_left flat_map].
  - now rewrite app_nil_r.
  - rewrite IH, fold_left_collect. now rewrite <- app_assoc.
Qed.

Lemma nonempty_longer (n : nat) (t : string) :
  str_bool t && (n <? String.length t)%nat = (n <? String.length t)%nat.
Proof. destruct t; [| reflexivity]. cbn. now destruct n. Qed.

Lemma structured_services_layer_a (soup : node) :
  structured_services soup = layer_a soup.
Proof.
  unfold structured_services, layer_a.
  rewrite find_all_class_containers.
  rewrite (fold_left_nested (find_all ["h2"; "h3"; "li"; "p"]) get_text_strip
             (fun text => str_bool text && (10 <? String.length text)%nat)).
  cbn [app]. apply flat_map_ext. intros c.
  rewrite find_all_elements. apply List.filter_ext. intros t.
  apply nonempty_longer.
Qed.

Lemma main_content_first (soup : node) :
  main_content_of soup
  = first_element "main" soup ∪ first_element "article" soup
    ∪ first_element "body" soup.
Proof.
  unfold main_content_of, find, first_element. rewrite !find_all_elements.
  destruct (head (List.filter (is_element ["main"]) (descendants soup))),
    (head (List.filter (is_element ["article"]) (descendants soup))),
    (head (List.filter (is_element ["body"]) (descendants soup)));
    reflexivity.
Qed.

Lemma main_content_services_layer_b (soup : node) :
  main_content_services soup [] = layer_b soup.
Proof.
  unfold main_content_services, layer_b. rewrite main_content_first.
  destruct (first_element "main" soup ∪ first_element "article" soup
            ∪ first_element "body" soup) as [c|]; [| reflexivity].
  rewrite (fold_left_collect get_text_strip
             (fun text => str_bool text && (20 <? String.length text)%nat
                          && (str_in "service" (lower text)
                              || str_in "offer" (lower text)))).
  cbn [app]. rewrite find_all_elements. apply List.filter_ext. intros t.
  now rewrite nonempty_longer.
Qed.


(** ** The handler monad *)

Ltac unfold_monad :=
  unfold bind, ret, raise, lift, try_except, try_finally, emit, set_fs,
    get_fs, check, datetime_now in *.

Ltac unfold_files :=
  unfold stream_to_file, open_wb, write, getsize, open_rb, read, exists_,
    remove in *.

Ltac mred :=
  repeat progress (unfold_files; unfold_monad; cbn [fs trace ticks fst snd]).

Ltac mrun := repeat progress (mred; rewrite ?lookup_insert_eq).

Lemma synthesize_ok (e : env) (t : string) (s : state) (audio : bytes) :
  let path := temp_audio_path_of e (clock e (ticks s)) in
  speech_create e t = Ok audio ->
  (forall op, op ∈ speech_file_ops path -> fault e op = None) ->
  synthesize e t s
  = (Ok (mkJSONResponse 200
           {[ "text" := t; "audio" := Base64.b64encode audio ]}),
     mkState (delete path (<[path := audio]> (<[path := []]> (fs s))))
       (trace s ++ [SpeechCreate t]) (S (ticks s))).
Proof.
  intros path Hsp Hops.
  assert (H1 := Hops (OpenW path)). assert (H2 := Hops (WriteTo path)).
  assert (H3 := Hops (OpenR path)). assert (H4 := Hops (ReadFrom path)).
  assert (H5 := Hops (Remove path)).
  unfold speech_file_ops in *.
  unfold synthesize. mred. rewrite Hsp. fold path.
  rewrite H1, H2, H3, H4, H5 by set_solver. mrun. reflexivity.
Qed.

Lemma speech_fails_or_not (e : env) (t : string) (s : state) :
  speech_fails e t s
  \/ exists audio,
       speech_create e t = Ok audio
       /\ forall op, op ∈ speech_file_ops (temp_audio_path_of e (clock e (ticks s))) ->
                     fault e op = None.
Proof.
  unfold speech_fails, speech_file_ops.
  set (path := temp_audio_path_of e (clock e (ticks s))).
  destruct (speech_create e t) as [audio | err] eqn:Hsp; [| left; left; eauto].
  destruct (fault e (OpenW path)) eqn:H1;
    [left; right; exists (OpenW path); split; [set_solver | rewrite H1; eauto] |].
  destruct (fault e (WriteTo path)) eqn:H2;
    [left; right; exists (WriteTo path); split; [set_solver | rewrite H2; eauto] |].
  destruct (fault e (OpenR path)) eqn:H3;
    [left; right; exists (OpenR path); split; [set_solver | rewrite H3; eauto] |].
  destruct (fault e (ReadFrom path)) eqn:H4;
    [left; right; exists (ReadFrom path); split; [set_solver | rewrite H4; eauto] |].
  destruct (fault e (Remove path)) eqn:H5;
    [left; right; exists (Remove path); split; [set_solver | rewrite H5; eauto] |].
  right. exists audio. split; [reflexivity |].
  intros op Hop. repeat (apply elem_of_cons in Hop as [-> | Hop]; [assumption |]).
  inversion Hop.
Qed.

Lemma synthesize_raises (e : env) (t : string) (s : state) :
  speech_fails e t s -> exists err s', synthesize e t s = (Raise err, s').
Proof.
  unfold speech_fails, speech_file_ops.
  set (path := temp_audio_path_of e (clock e (ticks s))).
  intros H. unfold synthesize. mred. fold path.
  destruct (speech_create e t) as [audio | err] eqn:Hsp; [| eauto].
  destruct H as [[err H] | (op & Hop & Hf)]; [discriminate |].
  destruct (fault e (OpenW path)) eqn:H1; mrun; [eauto |].
  destruct (fault e (WriteTo path)) eqn:H2; mrun; [eauto |].
  destruct (fault e (OpenR path)) eqn:H3; mrun; [eauto |].
  destruct (fault e (ReadFrom path)) eqn:H4; mrun; [eauto |].
  destruct (fault e (Remove path)) eqn:H5; mrun; [eauto |].
  exfalso. destruct Hf as [msg Hf].
  repeat (apply elem_of_cons in Hop as [-> | Hop]; [congruence |]).
  inversion Hop.
Qed.

Lemma text_to_speech_cases (e : env) (t : string) (s : state) :
  (speech_fails e t s /\
   exists s', text_to_speech e t s
              = (Ok (mkJSONResponse 200 {[ "text" := t; "error" := failed_audio ]}), s'))
  \/ (exists audio s',
        speech_create e t = Ok audio
        /\ text_to_speech e t s
           = (Ok (mkJSONResponse 200
                    {[ "text" := t; "audio" := Base64.b64encode audio ]}), s')).
Proof.
  destruct (speech_fails_or_not e t s) as [H | (audio & Hsp & Hops)].
  - left. split; [exact H |].
    apply synthesize_raises in H as (err & s' & H).
    exists s'. unfold text_to_speech, try_except. now rewrite H.
  - right. exists audio. eexists. split; [exact Hsp |].
    unfold text_to_speech, try_except.
    now rewrite (synthesize_ok e t s audio Hsp Hops).
Qed.

Lemma text_to_speech_total (e : env) (t : string) (s : state) :
  exists response s',
    text_to_speech e t s = (Ok response, s')
    /\ Fastapi.status_code response = 200%Z
    /\ content response !! "text" = Some t.
Proof.
  destruct (text_to_speech_cases e t s) as [(_ & s' & H) | (audio & s' & _ & H)];
    rewrite H; eexists _, s'; (split; [reflexivity | split; [reflexivity |]]);
    apply lookup_insert_eq.
Qed.

Lemma search_of_text (e : env) (q : string) (s s1 : state) (t : string) :
  response_text_of e q s = (Ok t, s1) -> search e q s = text_to_speech e t s1.
Proof.
  intros H. unfold search, try_except, bind. rewrite H.
  destruct (text_to_speech_total e t s1) as (r & s' & Ht & _). now rewrite Ht.
Qed.

Lemma answers_of_text (e : env) (q : string) (s s1 : state) (t : string) :
  response_text_of e q s = (Ok t, s1) -> answers e q s t.
Proof.
  intros H. unfold answers. rewrite (search_of_text _ _ _ _ _ H).
  apply text_to_speech_total.
Qed.

(** ** The two branches of [search] *)

(** The state after one clock reading. *)
Lemma yesterday_of_ok (e : env) (s : state) (date : string) :
  yesterday_is e s date ->
  yesterday_of e s = (Ok date, mkState (fs s) (trace s) (S (ticks s))).
Proof.
  intros (y & Hy & ->). unfold yesterday_of. mred. now rewrite Hy.
Qed.

Lemma get_run (e : env) (url : string) (params : option (gmap string json))
    (s : state) :
  get e url params s
  = (requests_get e url params,
     mkState (fs s) (trace s ++ [HttpGet url params]) (ticks s)).
Proof. unfold get. mred. now destruct (requests_get e url params). Qed.

(** What the body of the [try] of the cricket branch computes from the
    provider's document. *)
Lemma serp_lookup_run (e : env) (date : string) (results : json) (s : state) :
  provider_sends e date results ->
  serp_lookup e date s
  = (match has_organic_results results with
     | Ok true =>
         match top3_snippets results with
         | Ok (c :: cs) => here_are date (c :: cs)
         | Ok [] =>
             Ok ("No detailed cricket results found for " ++ date
                 ++ ". Please try searching for a different date.")
         | Raise err => Raise err
         end
     | Ok false =>
         Ok ("No cricket results found for " ++ date
             ++ ". Please try searching for a different date.")
     | Raise err => Raise err
     end,
     mkState (fs s)
       (trace s ++ [HttpGet serpapi_url (Some (serp_params e (search_query_of date)))])
       (ticks s)).
Proof.
  intros (response & Hget & Hjson). unfold serp_lookup.
  unfold bind at 1. rewrite get_run, Hget. mred. rewrite Hjson.
  destruct (has_organic_results results) as [[|] | err]; [| reflexivity ..].
  destruct (top3_snippets results) as [[|c cs] | err]; [reflexivity | | reflexivity].
  now destruct (here_are date (c :: cs)).
Qed.

(** The same for the fallback of the other branch. *)
Lemma fallback_branch_run (e : env) (date : string) (results : json) (s : state) :
  yesterday_is e s date ->
  provider_sends e date results ->
  fallback_branch e s
  = (match has_organic_results results with
     | Ok true =>
         match top3_snippets results with
         | Ok (c :: cs) => here_are date (c :: cs)
         | Ok [] => Ok unable_at_the_moment
         | Raise err => Raise err
         end
     | Ok false => Ok unable_at_the_moment
     | Raise err => Raise err
     end,
     mkState (fs s)
       (trace s ++ [HttpGet serpapi_url (Some (serp_params e (search_query_of date)))])
       (S (ticks s))).
Proof.
  intros Hy (response & Hget & Hjson). unfold fallback_branch.
  unfold bind at 1. rewrite (yesterday_of_ok _ _ _ Hy).
  unfold bind at 1. rewrite get_run, Hget. mred. rewrite Hjson.
  destruct (has_organic_results results) as [[|] | err]; [| reflexivity ..].
  destruct (top3_snippets results) as [[|c cs] | err]; [reflexivity | | reflexivity].
  now destruct (here_are date (c :: cs)).
Qed.

Lemma cricket_branch_run (e : env) (date : string) (s : state) :
  yesterday_is e s date ->
  cricket_branch e s
  = try_except (serp_lookup e date) (fun _ => ret unable_to_fetch)
      (mkState (fs s) (trace s) (S (ticks s))).
Proof.
  intros Hy. unfold cricket_branch. unfold bind at 1.
  now rewrite (yesterday_of_ok _ _ _ Hy).
Qed.

(** The cricket branch always ends with a text once the date is known. *)
Lemma cricket_branch_total (e : env) (date : string) (s : state) :
  yesterday_is e s date -> exists t s', cricket_branch e s = (Ok t, s').
Proof.
  intros Hy. rewrite (cricket_branch_run _ _ _ Hy). unfold try_except.
  destruct (serp_lookup e date _) as [[t | err] s']; [eauto |].
  unfold ret. eauto.
Qed.

(** The other branch always ends with a text. *)
Lemma sena_branch_total (e : env) (s : state) :
  exists t s', sena_branch e s = (Ok t, s').
Proof.
  unfold sena_branch, try_except.
  destruct (sena_lookup e s) as [[t | err] s']; [eauto |].
  unfold ret. eauto.
Qed.

Lemma response_text_sports (e : env) (q : string) :
  classify q = true -> response_text_of e q = cricket_branch e.
Proof. unfold response_text_of, classify. now intros ->. Qed.

Lemma response_text_other (e : env) (q : string) :
  classify q = false -> response_text_of e q = sena_branch e.
Proof. unfold response_text_of, classify. now intros ->. Qed.

(** ** Organic results *)

Lemma as_strs_strings (l : list string) : as_strs (JStr <$> l) = Ok l.
Proof. induction l as [|x l IH]; cbn; [reflexivity | now rewrite IH]. Qed.

Lemma collect_snippets_organic (rs acc : list json) :
  Forall organic_result rs ->
  collect_snippets rs acc = Ok (acc ++ (JStr <$> omap snippet_of rs))%list.
Proof.
  intros H. revert acc. induction H as [|r rs (d & -> & Hr) _ IH]; intros acc.
  - cbn. now rewrite app_nil_r.
  - cbn [collect_snippets contains rbind getitem].
    change (omap snippet_of (JDict d :: rs))
      with (match snippet_of (JDict d) with
            | Some y => y :: omap snippet_of rs
            | None => omap snippet_of rs
            end).
    cbn [snippet_of].
    destruct Hr as [Hn | (x & Hx)].
    + rewrite Hn. rewrite bool_decide_eq_false_2 by (intros [? ?]; discriminate).
      apply IH.
    + rewrite Hx. rewrite bool_decide_eq_true_2 by eauto.
      cbn [rbind]. rewrite IH, fmap_cons. now rewrite <- app_assoc.
Qed.

Lemma omap_length_le {A B} (f : A -> option B) (l : list A) :
  (length (omap f l) <= length l)%nat.
Proof.
  induction l as [|x l IH]; [reflexivity |].
  change (omap f (x :: l))
    with (match f x with Some y => y :: omap f l | None => omap f l end).
  destruct (f x); cbn [length]; lia.
Qed.

Lemma used_snippets_bound (organic : list json) :
  used_snippets organic `prefix_of` omap snippet_of organic
  /\ (length (used_snippets organic) <= 3)%nat.
Proof.
  unfold used_snippets. split.
  - rewrite <- (take_drop 3 organic) at 2. rewrite omap_app.
    now apply prefix_app_r.
  - etransitivity; [apply omap_length_le |]. rewrite length_take. lia.
Qed.

Lemma has_organic_results_list (d0 : gmap string json) (organic : list json) :
  d0 !! "organic_results" = Some (JList organic) ->
  has_organic_results (JDict d0)
  = Ok (match organic with [] => false | _ => true end).
Proof.
  intros H. unfold has_organic_results. cbn [contains rbind getitem].
  rewrite H. rewrite bool_decide_eq_true_2 by eauto. reflexivity.
Qed.

Lemma has_organic_results_absent (d0 : gmap string json) :
  d0 !! "organic_results" = None -> has_organic_results (JDict d0) = Ok false.
Proof.
  intros H. unfold has_organic_results. cbn [contains rbind].
  rewrite H. now rewrite bool_decide_eq_false_2 by (intros [? ?]; discriminate).
Qed.

Lemma top3_snippets_list (d0 : gmap string json) (organic : list json) :
  d0 !! "organic_results" = Some (JList organic) ->
  Forall organic_result (take 3 organic) ->
  top3_snippets (JDict d0) = Ok (JStr <$> used_snippets organic).
Proof.
  intros H Hwf. unfold top3_snippets. cbn [getitem rbind]. rewrite H.
  cbn [rbind slice_to]. now rewrite (collect_snippets_organic _ _ Hwf).
Qed.

Lemma here_are_strings (date : string) (l : list string) :
  here_are date (JStr <$> l)
  = Ok ("Here are the cricket results from " ++ date ++ ":" ++ LF ++ LF
        ++ Py.join (LF ++ LF) l).
Proof. unfold here_are, Json.join. now rewrite as_strs_strings. Qed.

(** Claim C3. On the sports path, when the provider sends a document
    whose organic results are well formed, the text of the answer is
    [sports_text] of the date and the results: with the date the day before
    the clock reading in long form; with no organic result, the fixed
    no-results message for that date; with organic results none of whose
    first three has a snippet, the fixed no-detailed-results message for
    that date; otherwise "Here are the cricket results from <date>:"
    followed by the snippets of the first three results, separated by blank
    lines. The snippets used are the first of the snippet-bearing results
    and at most three. *)
Theorem sports_path_text (e : env) (q : string) (s : state) (date : string)
    (d0 : gmap string json) (organic : list json) :
  classify q = true ->
  yesterday_is e s date ->
  provider_sends e date (JDict d0) ->
  (d0 !! "organic_results" = Some (JList organic)
   \/ (d0 !! "organic_results" = None /\ organic = [])) ->
  Forall organic_result (take 3 organic) ->
  answers e q s (sports_text date organic)
  /\ used_snippets organic `prefix_of` omap snippet_of organic
  /\ (length (used_snippets organic) <= 3)%nat.
Proof.
  intros Hq Hy Hp Ho Hwf. split; [| apply used_snippets_bound].
  eapply answers_of_text.
  rewrite (response_text_sports _ _ Hq), (cricket_branch_run _ _ _ Hy).
  unfold try_except. rewrite (serp_lookup_run _ _ _ _ Hp).
  destruct Ho as [Ho | [Ho ->]].
  - rewrite (has_organic_results_list _ _ Ho).
    destruct organic as [|r rs]; [reflexivity |].
    rewrite (top3_snippets_list _ _ Ho Hwf).
    unfold sports_text.
    destruct (used_snippets (r :: rs)) as [|x xs] eqn:Hu; [reflexivity |].
    rewrite fmap_cons.
    change (JStr x :: (JStr <$> xs)) with (JStr <$> x :: xs).
    now rewrite here_are_strings.
  - now rewrite (has_organic_results_absent _ Ho).
Qed.

(** The cricket branch asks the provider exactly once, whatever comes back. *)
Lemma serp_lookup_state (e : env) (date : string) (s : state) :
  snd (serp_lookup e date s)
  = mkState (fs s)
      (trace s ++ [HttpGet serpapi_url (Some (serp_params e (search_query_of date)))])
      (ticks s).
Proof.
  unfold serp_lookup. unfold bind at 1. rewrite get_run.
  destruct (requests_get e serpapi_url _) as [response | err]; [| reflexivity].
  mred. destruct (json_ response) as [results | err]; [| reflexivity].
  destruct (has_organic_results results) as [[|] | err]; [| reflexivity ..].
  destruct (top3_snippets results) as [[|c cs] | err]; [reflexivity | | reflexivity].
  now destruct (here_are date (c :: cs)).
Qed.

Lemma serp_lookup_provider_fails (e : env) (date : string) (s : state) :
  provider_fails e date -> exists err, fst (serp_lookup e date s) = Raise err.
Proof.
  unfold provider_fails, serp_lookup. unfold bind at 1. rewrite get_run.
  intros [[err H] | (response & err & H & Hj)]; rewrite H; [eauto |].
  mred. rewrite Hj. eauto.
Qed.

Lemma cricket_branch_provider_fails (e : env) (date : string) (s : state) :
  yesterday_is e s date -> provider_fails e date ->
  exists s', cricket_branch e s = (Ok unable_to_fetch, s').
Proof.
  intros Hy Hp. rewrite (cricket_branch_run _ _ _ Hy). unfold try_except.
  destruct (serp_lookup_provider_fails e date
              (mkState (fs s) (trace s) (S (ticks s))) Hp) as [err H].
  destruct (serp_lookup e date _) as [[t | err'] s']; [discriminate |].
  unfold ret. eauto.
Qed.

Lemma sena_branch_site_fails (e : env) (s : state) :
  site_fails e -> exists s', sena_branch e s = (Ok unable_to_access, s').
Proof.
  unfold site_fails, sena_branch, try_except, sena_lookup.
  unfold bind at 1. rewrite get_run.
  intros [[err H] | (response & err & H & Hc & Hp)]; rewrite H.
  - unfold ret. eauto.
  - rewrite Hc. cbn [Z.eqb Pos.eqb]. mred. rewrite Hp. eauto.
Qed.

(** Claim C4. A failure inside a branch of [search] is absorbed. For a
    sports query, when the call to the search provider raises (the request
    or the decoding of its body), the endpoint answers with HTTP success and
    the fixed text [unable_to_fetch]. For any other query, when the fetch of
    the fixed site or the parse of its page raises, the endpoint answers
    with HTTP success and the fixed text [unable_to_access]. In every case
    (the date being computable on the sports path) the endpoint answers
    with HTTP success and some text. *)
Theorem search_absorbs_branch_failures (e : env) (q : string) (s : state) :
  (classify q = true ->
   forall date, yesterday_is e s date -> provider_fails e date ->
                answers e q s unable_to_fetch)
  /\ (classify q = false -> site_fails e -> answers e q s unable_to_access)
  /\ (classify q = false \/ (exists date, yesterday_is e s date) ->
      exists t, answers e q s t).
Proof.
  split; [| split].
  - intros Hq date Hy Hp.
    destruct (cricket_branch_provider_fails e date s Hy Hp) as [s' H].
    eapply answers_of_text. rewrite (response_text_sports _ _ Hq). exact H.
  - intros Hq Hs.
    destruct (sena_branch_site_fails e s Hs) as [s' H].
    eapply answers_of_text. rewrite (response_text_other _ _ Hq). exact H.
  - intros H. destruct (classify q) eqn:Hq.
    + destruct H as [H | [date Hy]]; [discriminate |].
      destruct (cricket_branch_total e date s Hy) as (t & s' & Ht).
      exists t. eapply answers_of_text.
      rewrite (response_text_sports _ _ Hq). exact Ht.
    + destruct (sena_branch_total e s) as (t & s' & Ht).
      exists t. eapply answers_of_text.
      rewrite (response_text_other _ _ Hq). exact Ht.
Qed.

(** ** The fallback to the search provider *)

Lemma sena_lookup_fallback (e : env) (code : Z) (s : state) :
  site_status e code -> code <> 200%Z ->
  sena_lookup e s
  = fallback_branch e
      (mkState (fs s) (trace s ++ [HttpGet sena_url None]) (ticks s)).
Proof.
  intros (response & H & <-) Hc. unfold sena_lookup.
  unfold bind at 1. rewrite get_run, H.
  now rewrite (proj2 (Z.eqb_neq _ _) Hc).
Qed.

Lemma sena_branch_fallback (e : env) (code : Z) (date : string)
    (results : json) (s : state) :
  site_status e code -> code <> 200%Z ->
  yesterday_is e s date -> provider_sends e date results ->
  exists s',
    sena_branch e s
    = (match has_organic_results results with
       | Ok true =>
           match top3_snippets results with
           | Ok (c :: cs) =>
               match here_are date (c :: cs) with
               | Ok t => Ok t
               | Raise _ => Ok unable_to_access
               end
           | Ok [] => Ok unable_at_the_moment
           | Raise _ => Ok unable_to_access
           end
       | Ok false => Ok unable_at_the_moment
       | Raise _ => Ok unable_to_access
       end, s').
Proof.
  intros Hs Hc Hy Hp. unfold sena_branch, try_except.
  rewrite (sena_lookup_fallback _ _ _ Hs Hc).
  rewrite (fallback_branch_run e date results
             (mkState (fs s) (trace s ++ [HttpGet sena_url None]) (ticks s)) Hy Hp).
  destruct (has_organic_results results) as [[|] | err]; unfold ret; eauto.
  destruct (top3_snippets results) as [[|c cs] | err]; eauto.
  destruct (here_are date (c :: cs)); eauto.
Qed.

Lemma sena_branch_fallback_fails (e : env) (code : Z) (date : string) (s : state) :
  site_status e code -> code <> 200%Z ->
  yesterday_is e s date -> provider_fails e date ->
  exists s', sena_branch e s = (Ok unable_to_access, s').
Proof.
  intros Hs Hc Hy Hp. unfold sena_branch, try_except.
  rewrite (sena_lookup_fallback _ _ _ Hs Hc).
  unfold fallback_branch. unfold bind at 1.
  rewrite (yesterday_of_ok e
             (mkState (fs s) (trace s ++ [HttpGet sena_url None]) (ticks s)) date Hy).
  unfold bind at 1. rewrite get_run.
  destruct Hp as [[err H] | (response & err & H & Hj)]; rewrite H.
  - unfold ret. eauto.
  - mred. rewrite Hj. eauto.
Qed.

(** Claim C2, as amended. For a query that is not a sports query, when
    the fixed site answers with a status other than 200: if the provider's
    document has a usable snippet among its first three organic results,
    the endpoint answers with exactly the text that a sports query gets in
    the same world and on the same date; if the document has no usable
    snippet, it answers with the fixed text [unable_at_the_moment]; if the
    call to the provider raises, it answers with the fixed text
    [unable_to_access]. *)
Theorem fallback_text_when_site_is_down (e : env) (q q' : string) (s : state)
    (code : Z) (date : string) :
  classify q = false -> classify q' = true ->
  site_status e code -> code <> 200%Z ->
  yesterday_is e s date ->
  (forall results t,
     provider_sends e date results -> usable_snippets date results t ->
     answers e q s t /\ answers e q' s t)
  /\ (forall results,
        provider_sends e date results -> no_usable_snippets results ->
        answers e q s unable_at_the_moment)
  /\ (provider_fails e date -> answers e q s unable_to_access).
Proof.
  intros Hq Hq' Hs Hc Hy. split; [| split].
  - intros results t Hp (Ho & c & cs & Ht & Hh). split.
    + destruct (sena_branch_fallback e code date results s Hs Hc Hy Hp) as [s' H].
      rewrite Ho, Ht, Hh in H.
      eapply answers_of_text. rewrite (response_text_other _ _ Hq). exact H.
    + eapply answers_of_text.
      rewrite (response_text_sports _ _ Hq'), (cricket_branch_run _ _ _ Hy).
      unfold try_except. rewrite (serp_lookup_run _ _ _ _ Hp).
      rewrite Ho, Ht, Hh. reflexivity.
  - intros results Hp Hn.
    destruct (sena_branch_fallback e code date results s Hs Hc Hy Hp) as [s' H].
    eapply answers_of_text. rewrite (response_text_other _ _ Hq).
    destruct Hn as [Hn | [Hn Ht]]; rewrite Hn in H; [exact H |].
    rewrite Ht in H. exact H.
  - intros Hp.
    destruct (sena_branch_fallback_fails e code date s Hs Hc Hy Hp) as [s' H].
    eapply answers_of_text. rewrite (response_text_other _ _ Hq). exact H.
Qed.

Lemma no_results_not_unable (prefix date suffix : string) :
  String "N" prefix ++ date ++ suffix <> unable_at_the_moment.
Proof. rewrite app_cons. discriminate. Qed.

(** Claim C8. For a query that is not a sports query, when the fixed
    site answers with a status other than 200 and the provider sends a
    document without usable snippets, the endpoint answers with the fixed
    text [unable_at_the_moment]; a sports query in the same world gets one of
    the two no-results messages for the date, and that text is a different
    string. *)
Theorem fallback_without_snippets_differs (e : env) (q q' : string) (s : state)
    (code : Z) (date : string) (results : json) :
  classify q = false -> classify q' = true ->
  site_status e code -> code <> 200%Z ->
  yesterday_is e s date ->
  provider_sends e date results -> no_usable_snippets results ->
  answers e q s unable_at_the_moment
  /\ exists t',
       answers e q' s t'
       /\ (t' = "No detailed cricket results found for " ++ date
                ++ ". Please try searching for a different date."
           \/ t' = "No cricket results found for " ++ date
                   ++ ". Please try searching for a different date.")
       /\ t' <> unable_at_the_moment.
Proof.
  intros Hq Hq' Hs Hc Hy Hp Hn. split.
  - destruct (sena_branch_fallback e code date results s Hs Hc Hy Hp) as [s' H].
    eapply answers_of_text. rewrite (response_text_other _ _ Hq).
    destruct Hn as [Hn | [Hn Ht]]; rewrite Hn in H; [exact H |].
    rewrite Ht in H. exact H.
  - assert (Hdirect : forall t',
              fst (serp_lookup e date (mkState (fs s) (trace s) (S (ticks s))))
              = Ok t' -> answers e q' s t').
    { intros t' H.
      destruct (serp_lookup e date (mkState (fs s) (trace s) (S (ticks s))))
        as [[t | err] s'] eqn:E; cbn [fst] in H; [| discriminate].
      injection H as ->. apply (answers_of_text e q' s s' t').
      rewrite (response_text_sports _ _ Hq'), (cricket_branch_run _ _ _ Hy).
      unfold try_except. now rewrite E. }
    destruct Hn as [Hn | [Hn Ht]].
    + eexists. split; [apply Hdirect; rewrite (serp_lookup_run _ _ _ _ Hp), Hn;
                       reflexivity |].
      split; [now right | apply no_results_not_unable].
    + eexists. split; [apply Hdirect; rewrite (serp_lookup_run _ _ _ _ Hp), Hn, Ht;
                       reflexivity |].
      split; [now left | apply no_results_not_unable].
Qed.

(** Claim C10. Two sports queries in the same world and state get the
    same outcome from [search], response and state alike; the one request
    made to the search provider carries the parameters built from the fixed
    template and the computed date, and nothing of the query. *)
Theorem sports_answer_ignores_query (e : env) (q1 q2 : string) (s : state) :
  classify q1 = true -> classify q2 = true ->
  search e q1 s = search e q2 s
  /\ (forall date, yesterday_is e s date ->
        exists t s1,
          response_text_of e q1 s = (Ok t, s1)
          /\ response_text_of e q2 s = (Ok t, s1)
          /\ trace s1
             = (trace s
                ++ [HttpGet serpapi_url
                      (Some (serp_params e (search_query_of date)))])%list).
Proof.
  intros H1 H2. split.
  - unfold search. now rewrite (response_text_sports _ _ H1), (response_text_sports _ _ H2).
  - intros date Hy.
    rewrite (response_text_sports _ _ H1), (response_text_sports _ _ H2).
    rewrite (cricket_branch_run _ _ _ Hy). unfold try_except.
    pose proof (serp_lookup_state e date (mkState (fs s) (trace s) (S (ticks s)))) as Hst.
    destruct (serp_lookup e date _) as [[t | err] s1]; cbn [snd] in Hst; subst s1.
    + eexists _, _. split; [reflexivity | split; reflexivity].
    + unfold ret. eexists _, _. split; [reflexivity | split; reflexivity].
Qed.

(** ** Speech synthesis *)

Lemma search_of_raise (e : env) (q : string) (s s1 : state) (err : string) :
  response_text_of e q s = (Raise err, s1) ->
  search e q s
  = (Ok (mkJSONResponse 500 {[ "error" := "Unexpected error: " ++ err ]}), s1).
Proof. intros H. unfold search, try_except, bind. now rewrite H. Qed.

(** Claim C7. When the retrieval of the text succeeds and speech
    synthesis, or one of the file operations after it, fails, the response
    has HTTP status 200, carries the retrieved text, has no audio field and
    has the error field set to [failed_audio]. Conversely a response with an
    audio field comes from a synthesis that succeeded, and the field is the
    base64 form of the synthesized audio. *)
Theorem speech_failure_keeps_text (e : env) (q : string) (s : state) :
  (forall t s1,
     response_text_of e q s = (Ok t, s1) -> speech_fails e t s1 ->
     exists response s',
       search e q s = (Ok response, s')
       /\ Fastapi.status_code response = 200%Z
       /\ content response !! "text" = Some t
       /\ content response !! "audio" = None
       /\ content response !! "error" = Some failed_audio)
  /\ (forall response s',
        search e q s = (Ok response, s') ->
        is_Some (content response !! "audio") ->
        exists t s1 audio,
          response_text_of e q s = (Ok t, s1)
          /\ speech_create e t = Ok audio
          /\ ~ speech_fails e t s1
          /\ content response !! "audio" = Some (Base64.b64encode audio)).
Proof.
  split.
  - intros t s1 Ht Hf. rewrite (search_of_text _ _ _ _ _ Ht).
    apply synthesize_raises in Hf as (err & s' & Hf).
    unfold text_to_speech, try_except. rewrite Hf.
    eexists _, s'. split; [reflexivity |]. cbn [Fastapi.status_code content].
    repeat split; reflexivity.
  - intros response s' Hs Ha.
    destruct (response_text_of e q s) as [[t | err] s1] eqn:Ht.
    + rewrite (search_of_text _ _ _ _ _ Ht) in Hs.
      destruct (text_to_speech_cases e t s1)
        as [(_ & s2 & H) | (audio & s2 & Hsp & H)];
        rewrite H in Hs; injection Hs as <- <-.
      * destruct Ha as [a Ha]. discriminate Ha.
      * exists t, s1, audio. repeat split; try reflexivity; try assumption.
        intros Hf. apply synthesize_raises in Hf as (err & s3 & Hf).
        unfold text_to_speech, try_except in H. rewrite Hf in H.
        unfold ret in H.
        apply (f_equal (fun p : result JSONResponse * state =>
                          match fst p with
                          | Ok r => content r !! "audio"
                          | Raise _ => None
                          end)) in H.
        discriminate H.
    + rewrite (search_of_raise _ _ _ _ _ Ht) in Hs. injection Hs as <- <-.
      destruct Ha as [a Ha]. discriminate Ha.
Qed.

(** ** Transcription *)

Lemma transcribe_empty_run (e : env) (s : state) :
  let path := temp_path_of e (clock e (ticks s)) in
  transcribe_audio e (mkUploadFile (Ok [])) s
  = match fault e (OpenW path) with
    | Some msg =>
        (Ok (mkJSONResponse 500 {[ "error" := "Error saving file: " ++ msg ]}),
         mkState (fs s) (trace s) (S (ticks s)))
    | None =>
        (Ok (mkJSONResponse 500
               {[ "error" := "Error saving file: Empty file received" ]}),
         mkState (<[path := []]> (fs s)) (trace s) (S (ticks s)))
    end.
Proof.
  intros path. unfold transcribe_audio. mred. fold path.
  destruct (fault e (OpenW path)); mrun; reflexivity.
Qed.

(** Claim C9. For an upload whose content is empty, POST /api/transcribe
    returns a response with HTTP status 500 and an error message, and makes
    no call outside the process, so none to the transcription provider;
    when the temporary file could be opened the message is
    "Error saving file: Empty file received". *)
Theorem transcribe_rejects_empty_upload (e : env) (s : state) :
  exists response s',
    transcribe_audio e (mkUploadFile (Ok [])) s = (Ok response, s')
    /\ Fastapi.status_code response = 500%Z
    /\ is_Some (content response !! "error")
    /\ trace s' = trace s
    /\ (fault e (OpenW (temp_path_of e (clock e (ticks s)))) = None ->
        content response !! "error"
        = Some "Error saving file: Empty file received").
Proof.
  rewrite transcribe_empty_run.
  destruct (fault e (OpenW _)) as [msg |]; eexists _, _;
    (split; [reflexivity |]); cbn [Fastapi.status_code content trace];
    repeat split; eauto; discriminate.
Qed.

(** Claim C1, on the route of an empty upload. When the temporary file
    can be opened, POST /api/transcribe with an empty upload returns its
    response with HTTP status 500 while the temporary file, created empty by
    the request, is still on the disk: the clean-up of the transcription
    step is not reached on this route. *)
Theorem empty_upload_leaves_temp_file (e : env) (s : state) :
  let path := temp_path_of e (clock e (ticks s)) in
  fault e (OpenW path) = None ->
  exists response s',
    transcribe_audio e (mkUploadFile (Ok [])) s = (Ok response, s')
    /\ Fastapi.status_code response = 500%Z
    /\ fs s' !! path = Some [].
Proof.
  intros path H. rewrite transcribe_empty_run. fold path. rewrite H.
  eexists _, _. split; [reflexivity | split; [reflexivity |]].
  cbn [fs]. apply lookup_insert_eq.
Qed.

(** The speech step of [search] leaves its file behind when an operation
    after the creation of the file fails. *)
Lemma speech_failure_leaves_temp_file (e : env) (t : string) (s : state)
    (audio : bytes) :
  let path := temp_audio_path_of e (clock e (ticks s)) in
  speech_create e t = Ok audio ->
  fault e (OpenW path) = None ->
  speech_fails e t s ->
  is_Some (fs (snd (text_to_speech e t s)) !! path).
Proof.
  intros path Hsp H1 Hf. unfold text_to_speech, try_except, synthesize. mred.
  fold path. rewrite Hsp, H1. mrun.
  destruct (fault e (WriteTo path)) eqn:H2; mrun;
    [eauto |].
  destruct (fault e (OpenR path)) eqn:H3; mrun;
    [eauto |].
  destruct (fault e (ReadFrom path)) eqn:H4; mrun;
    [eauto |].
  destruct (fault e (Remove path)) eqn:H5; mrun;
    [eauto |].
  exfalso. destruct Hf as [[err Hf] | (op & Hop & msg & Hf)]; [congruence |].
  unfold speech_file_ops in Hop. fold path in Hop.
  repeat (apply elem_of_cons in Hop as [-> | Hop]; [congruence |]).
  inversion Hop.
Qed.

(** ** The model on sample inputs *)

Example leap_day : sub_days noon 1 = Ok (mkDatetime 2024 2 29 12 0 0).
Proof. reflexivity. Qed.

Example new_year : sub_days (mkDatetime 2025 1 1 0 0 0) 1 = Ok (mkDatetime 2024 12 31 0 0 0).
Proof. reflexivity. Qed.

Example century : sub_days (mkDatetime 2100 3 1 0 0 0) 1 = Ok (mkDatetime 2100 2 28 0 0 0).
Proof. reflexivity. Qed.

Example epoch_ordinal : toordinal (mkDatetime 1970 1 1 0 0 0) = 719163%Z.
Proof. reflexivity. Qed.

Example long_date : strftime_B_d_Y (mkDatetime 2024 11 9 0 0 0) = "November 09, 2024".
Proof. reflexivity. Qed.

Example b64_man :
  Base64.b64encode [Byte.x4d; Byte.x61; Byte.x6e] = "TWFu"
  /\ Base64.b64encode [Byte.x4d; Byte.x61] = "TWE="
  /\ Base64.b64encode [Byte.x4d] = "TQ==".
Proof. repeat split; reflexivity. Qed.

Example services_page_items :
  extract_services services_page = ["Web design and more"; "Cloudhosting"].
Proof. vm_compute. reflexivity. Qed.

Example offers_page_items :
  extract_services offers_page = ["We offer many great things to you"].
Proof. vm_compute. reflexivity. Qed.

Example fair_sports_answer :
  fst (search fair "Who won the cricket?" boot)
  = Ok (mkJSONResponse 200
          {[ "text" := "Here are the cricket results from February 29, 2024:"
                       ++ LF ++ LF ++ "India won by 5 wickets"
                       ++ LF ++ LF ++ "Australia all out for 180";
             "audio" := "TWFu" ]}).
Proof. vm_compute. reflexivity. Qed.

Example fair_leaves_no_file :
  fs (snd (search fair "Who won the cricket?" boot)) = ∅.
Proof. vm_compute. reflexivity. Qed.

Example full_disk_leaves_file :
  fs (snd (search full_disk "Who won the cricket?" boot))
  !! "/tmp/response_20240301_120000.mp3" = Some [].
Proof. vm_compute. reflexivity. Qed.

(** ** The theorems at sample inputs *)

Lemma leap_day_is_yesterday (e : env) (s : state) :
  clock e (ticks s) = noon -> yesterday_is e s "February 29, 2024".
Proof. intros H. exists (mkDatetime 2024 2 29 12 0 0). now rewrite H. Defined.

Lemma provider_sends_doc (site : result Response) (doc : json)
    (page : result node) (speech : result bytes)
    (faults : fs_op -> option string) (date : string) :
  provider_sends (world site (http_ok doc) page speech faults) date doc.
Proof. exists (mkResponse 200 "" (Ok doc)). split; reflexivity. Defined.

Lemma site_status_down (provider : result Response) (page : result node)
    (speech : result bytes) (faults : fs_op -> option string) :
  site_status (world site_down provider page speech faults) 503.
Proof. eexists. split; reflexivity. Defined.

(** C1 at a sample input: an empty upload on a healthy disk. *)
Lemma empty_upload_leaves_temp_file_witness :
  exists response s',
    transcribe_audio fair (mkUploadFile (Ok [])) boot = (Ok response, s')
    /\ Fastapi.status_code response = 500%Z
    /\ fs s' !! "/tmp/temp_audio_20240301_120000.wav" = Some [].
Proof. exact (empty_upload_leaves_temp_file fair boot eq_refl). Defined.

(** C2 at a sample input: the site is down, the provider has snippets. *)
Lemma fallback_text_when_site_is_down_witness :
  answers down "What does Sena offer?" boot (sports_text "February 29, 2024" top5)
  /\ answers down "cricket scores" boot (sports_text "February 29, 2024" top5).
Proof.
  refine (proj1 (fallback_text_when_site_is_down down "What does Sena offer?"
                   "cricket scores" boot 503 "February 29, 2024"
                   eq_refl eq_refl _ _ _) (JDict (organic_doc top5)) _ _ _).
  - apply site_status_down.
  - discriminate.
  - now apply leap_day_is_yesterday.
  - apply provider_sends_doc.
  - split; [reflexivity |]. eexists _, _. split; reflexivity.
Defined.

(** C2 as stated fails: the site is down and the provider has nothing. *)
Lemma fallback_not_verbatim :
  classify "What does Sena offer?" = false
  /\ classify "cricket scores" = true
  /\ site_status silent 503
  /\ provider_sends silent "February 29, 2024" (JDict ∅)
  /\ exists t t',
       answers silent "cricket scores" boot t
       /\ answers silent "What does Sena offer?" boot t'
       /\ t <> t'.
Proof.
  split; [reflexivity | split; [reflexivity | split; [apply site_status_down |]]].
  split; [apply provider_sends_doc |].
  exists "No cricket results found for February 29, 2024. Please try searching for a different date.",
    unable_at_the_moment.
  split; [| split; [| discriminate]].
  - eapply answers_of_text. vm_compute. reflexivity.
  - eapply answers_of_text. vm_compute. reflexivity.
Qed.

(** C3 at a sample input: five results, the second without a snippet. *)
Lemma sports_path_text_witness :
  answers fair "Who won the cricket?" boot
    ("Here are the cricket results from February 29, 2024:" ++ LF ++ LF
     ++ "India won by 5 wickets" ++ LF ++ LF ++ "Australia all out for 180")
  /\ used_snippets top5 `prefix_of` omap snippet_of top5
  /\ (length (used_snippets top5) <= 3)%nat.
Proof.
  refine (sports_path_text fair "Who won the cricket?" boot "February 29, 2024"
            (organic_doc top5) top5 eq_refl _ _ (or_introl eq_refl) _).
  - now apply leap_day_is_yesterday.
  - apply provider_sends_doc.
  - repeat constructor.
    + eexists. split; [reflexivity |]. right. eexists. reflexivity.
    + eexists. split; [reflexivity |]. left. reflexivity.
    + eexists. split; [reflexivity |]. right. eexists. reflexivity.
Defined.

(** C4 at a sample input: the provider cannot be reached. *)
Lemma search_absorbs_branch_failures_witness :
  answers broken "Who won the cricket?" boot unable_to_fetch
  /\ answers broken "What does Sena offer?" boot unable_to_access.
Proof.
  split.
  - refine (proj1 (search_absorbs_branch_failures broken "Who won the cricket?" boot)
              eq_refl "February 29, 2024" _ _).
    + now apply leap_day_is_yesterday.
    + left. eexists. reflexivity.
  - refine (proj1 (proj2 (search_absorbs_branch_failures broken
                            "What does Sena offer?" boot)) eq_refl _).
    right. eexists _, _. split; [reflexivity | split; reflexivity].
Defined.

(** C5 at a sample input: a keyword in capitals. *)
Lemma classify_iff_keyword_occurs_witness :
  classify "Who won the MATCH?" = true.
Proof.
  refine (proj1 (proj2 (classify_iff_keyword_occurs fair "Who won the MATCH?"))
            "match" _ _).
  - do 2 apply list_elem_of_further. apply list_elem_of_here.
  - exists "Who won the ", "MATCH", "?". split; reflexivity.
Defined.



(** C7 at a sample input: the speech provider refuses. *)
Lemma speech_failure_keeps_text_witness :
  exists response s',
    search mute "What does Sena offer?" boot = (Ok response, s')
    /\ Fastapi.status_code response = 200%Z
    /\ content response !! "text"
       = Some (format_services ["Web design and more"; "Cloudhosting"])
    /\ content response !! "audio" = None
    /\ content response !! "error" = Some failed_audio.
Proof.
  refine (proj1 (speech_failure_keeps_text mute "What does Sena offer?" boot)
            (format_services ["Web design and more"; "Cloudhosting"])
            (mkState ∅ [HttpGet sena_url None] 0) _ _).
  - vm_compute. reflexivity.
  - left. eexists. reflexivity.
Defined.

(** C8 at a sample input: the site is down, the results have no snippet. *)
Lemma fallback_without_snippets_differs_witness :
  answers terse "What does Sena offer?" boot unable_at_the_moment
  /\ exists t',
       answers terse "cricket scores" boot t'
       /\ (t' = "No detailed cricket results found for " ++ "February 29, 2024"
                ++ ". Please try searching for a different date."
           \/ t' = "No cricket results found for " ++ "February 29, 2024"
                   ++ ". Please try searching for a different date.")
       /\ t' <> unable_at_the_moment.
Proof.
  refine (fallback_without_snippets_differs terse "What does Sena offer?"
            "cricket scores" boot 503 "February 29, 2024"
            (JDict (organic_doc [without_snippet])) eq_refl eq_refl _ _ _ _ _).
  - apply site_status_down.
  - discriminate.
  - now apply leap_day_is_yesterday.
  - apply provider_sends_doc.
  - right. split; reflexivity.
Defined.

(** C9 at a sample input: an empty upload on a healthy disk. *)
Lemma transcribe_rejects_empty_upload_witness :
  exists response s',
    transcribe_audio fair (mkUploadFile (Ok [])) boot = (Ok response, s')
    /\ Fastapi.status_code response = 500%Z
    /\ is_Some (content response !! "error")
    /\ trace s' = trace boot
    /\ (fault fair (OpenW (temp_path_of fair (clock fair (ticks boot)))) = None ->
        content response !! "error"
        = Some "Error saving file: Empty file received").
Proof. exact (transcribe_rejects_empty_upload fair boot). Defined.

(** C10 at a sample input: two sports queries in the same world. *)
Lemma sports_answer_ignores_query_witness :
  search fair "Who won the cricket?" boot = search fair "any GAME on?" boot.
Proof.
  exact (proj1 (sports_answer_ignores_query fair "Who won the cricket?"
                  "any GAME on?" boot eq_refl eq_refl)).
Defined.

(** * Further properties of the handlers *)

(** ** POST /api/transcribe on an upload that is not empty *)

(** The [finally] block never raises: a failure to remove the file is
    swallowed and the file stays. *)
Lemma clean_up_run (e : env) (path : string) (s : state) :
  clean_up e path s
  = (Ok tt,
     mkState
       match fs s !! path, fault e (Remove path) with
       | Some _, None => delete path (fs s)
       | _, _ => fs s
       end
       (trace s) (ticks s)).
Proof.
  unfold clean_up. mred. destruct s as [f tr n]. cbn [fs trace ticks].
  destruct (f !! path) as [data |] eqn:Hf.
  - rewrite bool_decide_eq_true_2 by eauto.
    destruct (fault e (Remove path)); mrun; [reflexivity |].
    rewrite Hf. reflexivity.
  - rewrite bool_decide_eq_false_2 by (intros [? ?]; discriminate). reflexivity.
Qed.

(** The run of the handler once the upload is saved: the response follows
    the provider, the file goes unless its removal fails. *)
Lemma transcribe_saved_run (e : env) (file : UploadFile) (s : state)
    (b : Byte.byte) (bs : bytes) :
  let path := temp_path_of e (clock e (ticks s)) in
  let content := b :: bs in
  file_read file = Ok content ->
  (forall op, op ∈ [OpenW path; WriteTo path; Getsize path; OpenR path;
                    ReadFrom path] -> fault e op = None) ->
  transcribe_audio e file s
  = (Ok match transcriptions_create e content with
        | Ok t => mkJSONResponse 200 {[ "text" := t ]}
        | Raise err =>
            mkJSONResponse 500
              {[ "error" := "Error during transcription: " ++ err ]}
        end,
     mkState
       match fault e (Remove path) with
       | None => delete path (fs s)
       | Some _ => <[path := content]> (fs s)
       end
       (trace s ++ [TranscriptionsCreate content]) (S (ticks s))).
Proof.
  intros path content Hread Hops.
  assert (H1 := Hops (OpenW path)). assert (H2 := Hops (WriteTo path)).
  assert (H3 := Hops (Getsize path)). assert (H4 := Hops (OpenR path)).
  assert (H5 := Hops (ReadFrom path)).
  unfold transcribe_audio. mred. fold path.
  rewrite H1 by set_solver. mrun. rewrite Hread. mrun. subst content.
  rewrite H2 by set_solver. mrun. rewrite H3 by set_solver. mrun.
  cbn [length Nat.eqb]. mrun. rewrite H4 by set_solver. mrun.
  rewrite H5 by set_solver. mrun.
  destruct (transcriptions_create e (b :: bs)) as [t | err]; mrun;
    rewrite clean_up_run; cbn [fs trace ticks]; rewrite lookup_insert_eq;
    destruct (fault e (Remove path));
    rewrite ?insert_insert_eq, ?delete_insert_eq; reflexivity.
Qed.

(** Property X1. When an upload that is not empty is saved, read back and
    transcribed without any failure, POST /api/transcribe returns status
    200 with the transcript as its text, has called the transcription
    provider once with exactly the uploaded bytes, and leaves no file at
    its temporary path (a file that was there before is gone too). *)
Theorem transcribe_success_removes_file (e : env) (file : UploadFile)
    (s : state) (content : bytes) (t : string) :
  let path := temp_path_of e (clock e (ticks s)) in
  file_read file = Ok content -> content <> [] ->
  healthy e (upload_file_ops path ++ [Remove path]) ->
  transcriptions_create e content = Ok t ->
  exists s',
    transcribe_audio e file s = (Ok (mkJSONResponse 200 {[ "text" := t ]}), s')
    /\ fs s' = delete path (fs s)
    /\ trace s' = (trace s ++ [TranscriptionsCreate content])%list.
Proof.
  intros path Hread Hne Hops Ht. destruct content as [|b bs]; [congruence |].
  assert (Hsave : healthy e (upload_file_ops path))
    by (intros op Hop; apply Hops, elem_of_app; now left).
  assert (Hrm : fault e (Remove path) = None)
    by (apply Hops, elem_of_app; right; apply list_elem_of_here).
  rewrite (transcribe_saved_run e file s b bs Hread Hsave).
  fold path. rewrite Ht, Hrm. eexists. repeat split.
Qed.

(** Property X2. When the upload is saved but the transcription provider
    raises, POST /api/transcribe returns status 500 with the message
    "Error during transcription: " followed by the provider's error, and
    the [finally] block has removed the temporary file. *)
Theorem transcription_failure_removes_file (e : env) (file : UploadFile)
    (s : state) (content : bytes) (err : string) :
  let path := temp_path_of e (clock e (ticks s)) in
  file_read file = Ok content -> content <> [] ->
  healthy e (upload_file_ops path ++ [Remove path]) ->
  transcriptions_create e content = Raise err ->
  exists s',
    transcribe_audio e file s
    = (Ok (mkJSONResponse 500
             {[ "error" := "Error during transcription: " ++ err ]}), s')
    /\ fs s' = delete path (fs s)
    /\ trace s' = (trace s ++ [TranscriptionsCreate content])%list.
Proof.
  intros path Hread Hne Hops Ht. destruct content as [|b bs]; [congruence |].
  assert (Hsave : healthy e (upload_file_ops path))
    by (intros op Hop; apply Hops, elem_of_app; now left).
  assert (Hrm : fault e (Remove path) = None)
    by (apply Hops, elem_of_app; right; apply list_elem_of_here).
  rewrite (transcribe_saved_run e file s b bs Hread Hsave).
  fold path. rewrite Ht, Hrm. eexists. repeat split.
Qed.

(** Property X3. A failure to remove the temporary file is swallowed: the
    response is the one that follows the outcome of the provider, as if the
    removal had worked, and the file stays on the disk with the uploaded
    content. *)
Theorem removal_failure_is_swallowed (e : env) (file : UploadFile)
    (s : state) (content : bytes) (msg : string) :
  let path := temp_path_of e (clock e (ticks s)) in
  file_read file = Ok content -> content <> [] ->
  healthy e (upload_file_ops path) ->
  fault e (Remove path) = Some msg ->
  exists s',
    transcribe_audio e file s
    = (Ok (transcription_response (transcriptions_create e content)), s')
    /\ fs s' !! path = Some content.
Proof.
  intros path Hread Hne Hops Hrm. destruct content as [|b bs]; [congruence |].
  rewrite (transcribe_saved_run e file s b bs Hread) by exact Hops.
  fold path. rewrite Hrm. eexists. split; [reflexivity |].
  cbn [fs]. apply lookup_insert_eq.
Qed.

(** ** POST /api/transcribe on any upload *)

Ltac oracle_step :=
  match goal with
  | |- context [match fault ?e ?op with _ => _ end] =>
      destruct (fault e op) eqn:?
  | |- context [match file_read ?f with _ => _ end] =>
      destruct (file_read f) as [[|? ?] | ?] eqn:?
  | |- context [match transcriptions_create ?e ?c with _ => _ end] =>
      destruct (transcriptions_create e c) eqn:?
  end.

Ltac oracle_cases :=
  repeat (mrun; rewrite ?clean_up_run; cbn [fs trace ticks length Nat.eqb];
          rewrite ?lookup_insert_eq; try oracle_step).

(** Property X4. When the save of the upload fails, at the opening of
    the temporary file, at the reading of the upload, at the writing or at
    the reading of the size, POST /api/transcribe returns status 500 with
    the message "Error saving file: " followed by the text of that failure,
    and makes no call to the transcription provider. *)
Theorem save_failure_is_reported (e : env) (file : UploadFile) (s : state)
    (msg : string) :
  let path := temp_path_of e (clock e (ticks s)) in
  save_fails e file path msg ->
  exists s',
    transcribe_audio e file s
    = (Ok (mkJSONResponse 500 {[ "error" := "Error saving file: " ++ msg ]}), s')
    /\ trace s' = trace s.
Proof.
  intros path H. unfold transcribe_audio. mred. fold path.
  destruct H as [H | (H0 & [H | (b & bs & Hr & [H | (Hw & H)])])].
  - rewrite H. mrun. eexists. split; reflexivity.
  - rewrite H0. mrun. rewrite H. mrun. eexists. split; reflexivity.
  - rewrite H0. mrun. rewrite Hr. mrun. rewrite H. mrun.
    eexists. split; reflexivity.
  - rewrite H0. mrun. rewrite Hr. mrun. rewrite Hw. mrun. rewrite H. mrun.
    eexists. split; reflexivity.
Qed.

(** Property X5. POST /api/transcribe changes no file other than its own
    temporary file, and it calls the transcription provider at most once,
    with the bytes of an upload that is not empty. *)
Theorem transcribe_touches_only_its_file (e : env) (file : UploadFile)
    (s : state) :
  let path := temp_path_of e (clock e (ticks s)) in
  let s' := snd (transcribe_audio e file s) in
  (forall p, p <> path -> fs s' !! p = fs s !! p)
  /\ (trace s' = trace s
      \/ exists content,
           file_read file = Ok content /\ content <> []
           /\ trace s' = (trace s ++ [TranscriptionsCreate content])%list).
Proof.
  intros path s'. subst s'.
  destruct (transcribe_audio e file s) as [r s'] eqn:E. revert E.
  unfold transcribe_audio. fold path. oracle_cases; fold path;
    intros [= <- <-]; cbn [snd fs trace];
    (split;
     [intros p Hp;
      rewrite ?lookup_delete_ne, ?lookup_insert_ne by congruence; reflexivity
     | first [left; reflexivity
             | right; eexists; split;
               [reflexivity | split; [discriminate | reflexivity]]]]).
Qed.

(** ** POST /api/search: what a request changes *)

Ltac speech_cases :=
  repeat (mrun;
          try match goal with
              | |- context [match fault ?e ?op with _ => _ end] =>
                  destruct (fault e op) eqn:?
              | |- context [match speech_create ?e ?t with _ => _ end] =>
                  destruct (speech_create e t) eqn:?
              end).

(** The speech step asks the provider once, for the text it was given, and
    touches no file but its own. *)
Lemma text_to_speech_state (e : env) (t : string) (s : state) :
  let path := temp_audio_path_of e (clock e (ticks s)) in
  let s' := snd (text_to_speech e t s) in
  trace s' = (trace s ++ [SpeechCreate t])%list
  /\ (forall p, p <> path -> fs s' !! p = fs s !! p).
Proof.
  intros path s'. subst s'.
  destruct (text_to_speech e t s) as [r s'] eqn:E. revert E.
  unfold text_to_speech, synthesize. fold path. speech_cases; fold path;
    intros [= <- <-]; cbn [snd fs trace];
    (split; [reflexivity |]); intros p Hp;
    rewrite ?lookup_delete_ne, ?lookup_insert_ne by congruence; reflexivity.
Qed.

Lemma yesterday_of_state (e : env) (s : state) :
  snd (yesterday_of e s) = mkState (fs s) (trace s) (S (ticks s)).
Proof.
  unfold yesterday_of. mred. now destruct (sub_days (clock e (ticks s)) 1).
Qed.

Lemma yesterday_of_value (e : env) (s : state) :
  fst (yesterday_of e s)
  = match sub_days (clock e (ticks s)) 1 with
    | Ok y => Ok (strftime_B_d_Y y)
    | Raise err => Raise err
    end.
Proof.
  unfold yesterday_of. mred. now destruct (sub_days (clock e (ticks s)) 1).
Qed.

(** The retrieval of the text changes no file. *)
Lemma fallback_branch_files (e : env) (s : state) :
  fs (snd (fallback_branch e s)) = fs s.
Proof.
  unfold fallback_branch. unfold bind at 1.
  pose proof (yesterday_of_state e s) as Hs.
  destruct (yesterday_of e s) as [[date | err] s1]; cbn [snd] in Hs; subst s1;
    [| reflexivity].
  unfold bind at 1. rewrite get_run.
  destruct (requests_get e serpapi_url _) as [response | err]; [| reflexivity].
  mred. destruct (json_ response) as [results | err]; [| reflexivity].
  destruct (has_organic_results results) as [[|] | err]; [| reflexivity ..].
  destruct (top3_snippets results) as [[|c cs] | err]; [reflexivity | | reflexivity].
  now destruct (here_are date (c :: cs)).
Qed.

Lemma sena_branch_files (e : env) (s : state) :
  fs (snd (sena_branch e s)) = fs s.
Proof.
  unfold sena_branch, try_except, sena_lookup. unfold bind at 1. rewrite get_run.
  destruct (requests_get e sena_url None) as [response | err]; [| reflexivity].
  destruct (Os.status_code response =? 200)%Z.
  - mred. now destruct (html_parser e (text response)).
  - pose proof (fallback_branch_files e
                  (mkState (fs s) (trace s ++ [HttpGet sena_url None]) (ticks s)))
      as H.
    destruct (fallback_branch e _) as [[t | err] s1]; exact H.
Qed.

Lemma cricket_branch_files (e : env) (s : state) :
  fs (snd (cricket_branch e s)) = fs s.
Proof.
  unfold cricket_branch. unfold bind at 1.
  pose proof (yesterday_of_state e s) as Hs.
  destruct (yesterday_of e s) as [[date | err] s1]; cbn [snd] in Hs; subst s1;
    [| reflexivity].
  unfold try_except.
  pose proof (serp_lookup_state e date (mkState (fs s) (trace s) (S (ticks s))))
    as H.
  destruct (serp_lookup e date _) as [[t | err] s1]; cbn [snd] in H; now subst s1.
Qed.

Lemma response_text_files (e : env) (q : string) (s : state) :
  fs (snd (response_text_of e q s)) = fs s.
Proof.
  unfold response_text_of.
  destruct (is_cricket_query (lower q));
    [apply cricket_branch_files | apply sena_branch_files].
Qed.

Lemma sub_days_error (t : datetime) (n : Z) (err : string) :
  sub_days t n = Raise err -> err = "date value out of range".
Proof.
  unfold sub_days.
  destruct ((0 <? toordinal t - n)%Z && (toordinal t - n <=? _MAXORDINAL)%Z).
  - destruct (_ord2ymd (toordinal t - n)) as [[y m] d]. discriminate.
  - now intros [= <-].
Qed.

Lemma cricket_branch_overflow (e : env) (s : state) (err : string) :
  sub_days (clock e (ticks s)) 1 = Raise err ->
  cricket_branch e s = (Raise err, mkState (fs s) (trace s) (S (ticks s))).
Proof.
  intros H. unfold cricket_branch. unfold bind at 1.
  pose proof (yesterday_of_state e s) as Hs.
  pose proof (yesterday_of_value e s) as Hv. rewrite H in Hv.
  destruct (yesterday_of e s) as [r s1]; cbn [fst snd] in *. now subst.
Qed.

(** Property X6. When the day before the clock reading cannot be
    computed, a sports query gets status 500 with the message
    "Unexpected error: " followed by the text of that failure, and no call
    leaves the process: the date is computed outside the [try] of the
    provider call. On the fallback of a query that is not a sports query,
    after the fixed site answered with a status other than 200, the same
    failure is absorbed: the endpoint answers with HTTP success and the
    fixed text [unable_to_access]. *)
Theorem date_failure_by_path (e : env) (q : string) (s : state) (err : string) :
  sub_days (clock e (ticks s)) 1 = Raise err ->
  (classify q = true ->
   exists s',
     search e q s
     = (Ok (mkJSONResponse 500 {[ "error" := "Unexpected error: " ++ err ]}), s')
     /\ trace s' = trace s /\ fs s' = fs s)
  /\ (classify q = false ->
      forall code, site_status e code -> code <> 200%Z ->
                   answers e q s unable_to_access).
Proof.
  intros Herr. split.
  - intros Hq. eexists. split.
    + apply search_of_raise. rewrite (response_text_sports _ _ Hq).
      apply cricket_branch_overflow, Herr.
    + split; reflexivity.
  - intros Hq code Hs Hc.
    assert (exists s1, sena_branch e s = (Ok unable_to_access, s1)) as [s1 H].
    { unfold sena_branch, try_except.
      rewrite (sena_lookup_fallback _ _ _ Hs Hc).
      unfold fallback_branch. unfold bind at 1.
      set (s0 := mkState (fs s) (trace s ++ [HttpGet sena_url None]) (ticks s)).
      pose proof (yesterday_of_value e s0) as Hv.
      change (ticks s0) with (ticks s) in Hv. rewrite Herr in Hv.
      destruct (yesterday_of e s0) as [r s1]. cbn [fst] in Hv. subst r.
      unfold ret. eauto. }
    eapply answers_of_text. rewrite (response_text_other _ _ Hq). exact H.
Qed.

(** Property X7. In every response of POST /api/search with status 200 the
    text field is the text that was sent to the speech provider, and that
    request is the last call the handler made. *)
Theorem spoken_text_is_returned_text (e : env) (q : string) (s : state)
    (response : JSONResponse) (s' : state) :
  search e q s = (Ok response, s') ->
  Fastapi.status_code response = 200%Z ->
  exists t,
    content response !! "text" = Some t
    /\ last (trace s') = Some (SpeechCreate t).
Proof.
  intros Hs Hst.
  destruct (response_text_of e q s) as [[t | err] s1] eqn:Ht.
  - rewrite (search_of_text _ _ _ _ _ Ht) in Hs.
    destruct (text_to_speech_total e t s1) as (r & s2 & H & _ & Htext).
    pose proof (proj1 (text_to_speech_state e t s1)) as Htr.
    rewrite Hs in H, Htr. injection H as <- <-. cbn [snd] in Htr.
    exists t. split; [exact Htext |]. rewrite Htr. apply last_snoc.
  - rewrite (search_of_raise _ _ _ _ _ Ht) in Hs. injection Hs as <- <-.
    discriminate Hst.
Qed.

Lemma sena_branch_without_provider (e : env) (s : state) :
  site_status e 200 \/ (exists err, requests_get e sena_url None = Raise err) ->
  exists t,
    sena_branch e s
    = (Ok t, mkState (fs s) (trace s ++ [HttpGet sena_url None]) (ticks s)).
Proof.
  unfold sena_branch, try_except, sena_lookup. unfold bind at 1. rewrite get_run.
  intros [(response & H & Hc) | [err H]]; rewrite H.
  - rewrite Hc. cbn [Z.eqb Pos.eqb]. mred.
    destruct (html_parser e (text response)); eauto.
  - unfold ret. eauto.
Qed.

(** Property X8. A sports query contacts the search provider and then the
    speech provider, and never the fixed site. A query that is not a sports
    query, when the fetch of the fixed site returns status 200 or raises,
    contacts the site and then the speech provider, and never the search
    provider. *)
Theorem search_contacts_one_source (e : env) (q : string) (s : state) :
  (classify q = true ->
   forall date, yesterday_is e s date ->
     exists t,
       answers e q s t
       /\ trace (snd (search e q s))
          = (trace s
             ++ [HttpGet serpapi_url (Some (serp_params e (search_query_of date)));
                 SpeechCreate t])%list)
  /\ (classify q = false ->
      site_status e 200 \/ (exists err, requests_get e sena_url None = Raise err) ->
      exists t,
        answers e q s t
        /\ trace (snd (search e q s))
           = (trace s ++ [HttpGet sena_url None; SpeechCreate t])%list).
Proof.
  split.
  - intros Hq date Hy.
    assert (exists t, response_text_of e q s
                      = (Ok t, mkState (fs s)
                                 (trace s ++ [HttpGet serpapi_url
                                                (Some (serp_params e (search_query_of date)))])
                                 (S (ticks s)))) as [t Ht].
    { rewrite (response_text_sports _ _ Hq), (cricket_branch_run _ _ _ Hy).
      unfold try_except.
      pose proof (serp_lookup_state e date (mkState (fs s) (trace s) (S (ticks s))))
        as Hst.
      destruct (serp_lookup e date _) as [[t | err] s1]; cbn [snd] in Hst;
        subst s1; unfold ret; eauto. }
    exists t. split; [exact (answers_of_text _ _ _ _ _ Ht) |].
    rewrite (search_of_text _ _ _ _ _ Ht).
    rewrite (proj1 (text_to_speech_state e t _)). cbn [trace].
    now rewrite <- app_assoc.
  - intros Hq Hsite.
    destruct (sena_branch_without_provider e s Hsite) as [t Ht].
    rewrite <- (response_text_other _ _ Hq) in Ht.
    exists t. split; [exact (answers_of_text _ _ _ _ _ Ht) |].
    rewrite (search_of_text _ _ _ _ _ Ht).
    rewrite (proj1 (text_to_speech_state e t _)). cbn [trace].
    now rewrite <- app_assoc.
Qed.

(** Property X9. POST /api/search changes no file other than a temporary
    audio file of its own, and when the response carries audio the
    temporary file has been removed again. *)
Theorem search_touches_only_temp_audio (e : env) (q : string) (s : state) :
  let s' := snd (search e q s) in
  (forall p, (forall now, p <> temp_audio_path_of e now) ->
             fs s' !! p = fs s !! p)
  /\ (forall response,
        fst (search e q s) = Ok response ->
        is_Some (content response !! "audio") ->
        exists now, fs s' = delete (temp_audio_path_of e now) (fs s)).
Proof.
  intros s'. subst s'.
  pose proof (response_text_files e q s) as Hfs.
  destruct (response_text_of e q s) as [[t | err] s1] eqn:Ht; cbn [snd] in Hfs.
  - rewrite (search_of_text _ _ _ _ _ Ht). split.
    + intros p Hp. rewrite <- Hfs.
      apply (proj2 (text_to_speech_state e t s1)), Hp.
    + intros response Hr Ha.
      destruct (speech_fails_or_not e t s1) as [Hf | (audio & Hsp & Hops)].
      * apply synthesize_raises in Hf as (err & s2 & Hf).
        unfold text_to_speech, try_except in Hr. rewrite Hf in Hr.
        cbn in Hr. injection Hr as <-. destruct Ha as [a Ha]. discriminate Ha.
      * exists (clock e (ticks s1)).
        unfold text_to_speech, try_except.
        rewrite (synthesize_ok e t s1 audio Hsp Hops). cbn [snd fs].
        now rewrite !delete_insert_eq, Hfs.
  - rewrite (search_of_raise _ _ _ _ _ Ht). cbn [snd fst]. split.
    + intros p _. now rewrite Hfs.
    + intros response [= <-] [a Ha]. discriminate Ha.
Qed.

(** ** The documents of the search provider *)

Lemma text_of_answer (e : env) (q : string) (s : state) (t : string) :
  answers e q s t -> exists s1, response_text_of e q s = (Ok t, s1).
Proof.
  intros (response & s' & Hs & Hst & Htext).
  destruct (response_text_of e q s) as [[t' | err] s1] eqn:Ht.
  - rewrite (search_of_text _ _ _ _ _ Ht) in Hs.
    destruct (text_to_speech_total e t' s1) as (r & s2 & H & _ & Ht').
    rewrite Hs in H. injection H as <- <-. exists s1. congruence.
  - rewrite (search_of_raise _ _ _ _ _ Ht) in Hs. injection Hs as <- <-.
    discriminate Hst.
Qed.

(** What the sports path answers when the provider sends [results]. *)
Lemma sports_answer_of_document (e : env) (q : string) (s : state)
    (date : string) (results : json) :
  classify q = true -> yesterday_is e s date -> provider_sends e date results ->
  answers e q s
    match has_organic_results results with
    | Ok true =>
        match top3_snippets results with
        | Ok (c :: cs) =>
            match here_are date (c :: cs) with
            | Ok t => t
            | Raise _ => unable_to_fetch
            end
        | Ok [] => no_detailed_results_for date
        | Raise _ => unable_to_fetch
        end
    | Ok false => no_results_for date
    | Raise _ => unable_to_fetch
    end.
Proof.
  intros Hq Hy Hp. eapply answers_of_text.
  rewrite (response_text_sports _ _ Hq), (cricket_branch_run _ _ _ Hy).
  unfold try_except. rewrite (serp_lookup_run _ _ _ _ Hp).
  destruct (has_organic_results results) as [[|] | err]; try reflexivity.
  destruct (top3_snippets results) as [[|c cs] | err]; try reflexivity.
  destruct (here_are date (c :: cs)); reflexivity.
Qed.

Lemma collect_snippets_objects (rs acc : list json) :
  Forall is_object rs ->
  collect_snippets rs acc = Ok (acc ++ omap raw_snippet rs)%list.
Proof.
  intros H. revert acc. induction H as [|r rs [d ->] _ IH]; intros acc.
  - cbn. now rewrite app_nil_r.
  - cbn [collect_snippets contains rbind getitem].
    change (omap raw_snippet (JDict d :: rs))
      with (match raw_snippet (JDict d) with
            | Some y => y :: omap raw_snippet rs
            | None => omap raw_snippet rs
            end).
    cbn [raw_snippet]. destruct (d !! "snippet") as [v |] eqn:Hd.
    + rewrite bool_decide_eq_true_2 by eauto.
      cbn [rbind]. rewrite IH. now rewrite <- app_assoc.
    + rewrite bool_decide_eq_false_2 by (intros [? ?]; discriminate). apply IH.
Qed.

Lemma as_strs_not_text (l : list json) (v : json) :
  v ∈ l -> ~ is_text v -> exists err, as_strs l = Raise err.
Proof.
  intros Hv Hn. induction l as [|x l IH]; [inversion Hv |].
  apply elem_of_cons in Hv as [<- | Hv].
  - destruct v; cbn; eauto. exfalso. apply Hn. now eexists.
  - destruct (IH Hv) as [err H]. destruct x; cbn; eauto. rewrite H. eauto.
Qed.

(** Property X10. On the sports path, when one of the first three organic
    results (all of them objects) has under "snippet" a value that is not a
    string, the answer is the fixed text [unable_to_fetch], also when other
    results have usable snippets: the join of the snippets raises and the
    handler of the provider call absorbs it. *)
Theorem non_text_snippet_spoils_answer (e : env) (q : string) (s : state)
    (date : string) (d0 : gmap string json) (organic : list json) (v : json) :
  classify q = true -> yesterday_is e s date ->
  provider_sends e date (JDict d0) ->
  d0 !! "organic_results" = Some (JList organic) ->
  Forall is_object (take 3 organic) ->
  v ∈ omap raw_snippet (take 3 organic) -> ~ is_text v ->
  answers e q s unable_to_fetch.
Proof.
  intros Hq Hy Hp Ho Hobj Hv Hn.
  pose proof (sports_answer_of_document e q s date (JDict d0) Hq Hy Hp) as H.
  rewrite (has_organic_results_list _ _ Ho) in H.
  assert (Htop : top3_snippets (JDict d0) = Ok (omap raw_snippet (take 3 organic))).
  { unfold top3_snippets. cbn [getitem rbind]. rewrite Ho. cbn [rbind slice_to].
    now rewrite (collect_snippets_objects _ _ Hobj). }
  rewrite Htop in H.
  destruct organic as [|r rs]; [inversion Hv |].
  destruct (omap raw_snippet (take 3 (r :: rs))) as [|c cs] eqn:Hl;
    [inversion Hv |].
  destruct (as_strs_not_text _ _ Hv Hn) as [err Herr].
  unfold here_are, Json.join in H. rewrite Herr in H. exact H.
Qed.

(** Property X11. On the sports path the answer depends on the first three
    organic results only: two worlds whose provider documents agree on the
    first three results give the same text, whatever comes after. *)
Theorem later_results_are_ignored (e1 e2 : env) (q : string) (s : state)
    (date : string) (d1 d2 : gmap string json) (l1 l2 : list json) (t : string) :
  classify q = true ->
  yesterday_is e1 s date -> yesterday_is e2 s date ->
  provider_sends e1 date (JDict d1) -> provider_sends e2 date (JDict d2) ->
  d1 !! "organic_results" = Some (JList l1) ->
  d2 !! "organic_results" = Some (JList l2) ->
  take 3 l1 = take 3 l2 ->
  answers e1 q s t -> answers e2 q s t.
Proof.
  intros Hq Hy1 Hy2 Hp1 Hp2 Ho1 Ho2 Htake Ha.
  pose proof (sports_answer_of_document e1 q s date _ Hq Hy1 Hp1) as H1.
  pose proof (sports_answer_of_document e2 q s date _ Hq Hy2 Hp2) as H2.
  assert (Hsame : forall t', answers e1 q s t' -> t' = t).
  { intros t' (r1 & s1 & E1 & _ & T1). destruct Ha as (r2 & s2 & E2 & _ & T2).
    rewrite E1 in E2. injection E2 as -> ->. congruence. }
  apply Hsame in H1. rewrite <- H1.
  assert (Hh : has_organic_results (JDict d1) = has_organic_results (JDict d2)).
  { rewrite (has_organic_results_list _ _ Ho1), (has_organic_results_list _ _ Ho2).
    destruct l1, l2; try reflexivity; discriminate. }
  assert (Ht : top3_snippets (JDict d1) = top3_snippets (JDict d2)).
  { unfold top3_snippets. cbn [getitem rbind]. rewrite Ho1, Ho2.
    cbn [rbind slice_to]. now rewrite Htake. }
  rewrite Hh, Ht. exact H2.
Qed.

Lemma as_strs_inv (l : list json) (ss : list string) :
  as_strs l = Ok ss -> l = JStr <$> ss.
Proof.
  revert ss. induction l as [|x l IH]; intros ss H.
  - cbn in H. now injection H as <-.
  - destruct x; try discriminate. cbn in H.
    destruct (as_strs l) as [ss' | err]; [| discriminate].
    injection H as <-. now rewrite (IH ss' eq_refl).
Qed.

Lemma str_take_iter_length (n : nat) (x : string) :
  (length (str_iter (str_take n x)) <= n)%nat.
Proof.
  revert x. induction n as [|n IH]; intros [|c x]; cbn; try lia.
  specialize (IH x). lia.
Qed.

Lemma slice_to_length (n : nat) (v : json) (top : list json) :
  slice_to n v = Ok top -> (length top <= n)%nat.
Proof.
  destruct v; try discriminate; cbn; intros [= <-].
  - rewrite length_fmap. apply str_take_iter_length.
  - rewrite length_take. lia.
Qed.

Lemma collect_snippets_length (rs acc l : list json) :
  collect_snippets rs acc = Ok l -> (length l <= length acc + length rs)%nat.
Proof.
  revert acc. induction rs as [|r rs IH]; intros acc H.
  - cbn in H. injection H as <-. cbn. lia.
  - cbn [collect_snippets] in H.
    destruct (contains "snippet" r) as [[|] | err]; cbn [rbind] in H;
      [| | discriminate].
    + destruct (getitem "snippet" r) as [v | err]; cbn [rbind] in H;
        [| discriminate].
      apply IH in H. rewrite length_app in H. cbn in *. lia.
    + apply IH in H. cbn. lia.
Qed.

Lemma top3_snippets_length (results : json) (l : list json) :
  top3_snippets results = Ok l -> (length l <= 3)%nat.
Proof.
  unfold top3_snippets.
  destruct (getitem "organic_results" results) as [organic | err];
    cbn [rbind]; [| discriminate].
  destruct (slice_to 3 organic) as [top | err] eqn:Hs; cbn [rbind];
    [| discriminate].
  intros H. apply collect_snippets_length in H.
  apply slice_to_length in Hs. cbn in H. lia.
Qed.

Lemma sports_answer_when_provider_fails (e : env) (q : string) (s : state)
    (date : string) :
  classify q = true -> yesterday_is e s date -> provider_fails e date ->
  answers e q s unable_to_fetch.
Proof.
  intros Hq Hy Hp.
  destruct (cricket_branch_provider_fails e date s Hy Hp) as [s' H].
  eapply answers_of_text. rewrite (response_text_sports _ _ Hq). exact H.
Qed.

(** Property X12. Whatever the search provider does or sends, the answer
    to a sports query is one of four texts: [unable_to_fetch], the
    no-results message for the date, the no-detailed-results message for
    the date, or "Here are the cricket results from <date>:" followed by
    one to three snippets separated by blank lines. *)
Theorem sports_answer_forms (e : env) (q : string) (s : state) (date : string) :
  classify q = true -> yesterday_is e s date ->
  exists t,
    answers e q s t
    /\ (t = unable_to_fetch
        \/ t = no_results_for date
        \/ t = no_detailed_results_for date
        \/ exists snippets,
             snippets <> [] /\ (length snippets <= 3)%nat
             /\ t = "Here are the cricket results from " ++ date ++ ":"
                    ++ LF ++ LF ++ Py.join (LF ++ LF) snippets).
Proof.
  intros Hq Hy.
  destruct (requests_get e serpapi_url
              (Some (serp_params e (search_query_of date))))
    as [response | err] eqn:Hget.
  2: { exists unable_to_fetch. split; [| now left].
       apply (sports_answer_when_provider_fails e q s date Hq Hy).
       left. eauto. }
  destruct (json_ response) as [results | err] eqn:Hjson.
  2: { exists unable_to_fetch. split; [| now left].
       apply (sports_answer_when_provider_fails e q s date Hq Hy).
       right. eauto. }
  assert (Hp : provider_sends e date results) by (exists response; eauto).
  eexists. split; [exact (sports_answer_of_document e q s date results Hq Hy Hp) |].
  destruct (has_organic_results results) as [[|] | err]; auto.
  destruct (top3_snippets results) as [[|c cs] | err] eqn:Htop; auto.
  destruct (here_are date (c :: cs)) as [t | err] eqn:Hh; auto.
  do 3 right. unfold here_are, Json.join in Hh.
  destruct (as_strs (c :: cs)) as [ss | err] eqn:Hss; cbn [rbind] in Hh;
    [| discriminate].
  injection Hh as <-. exists ss. split; [| split; [| reflexivity]].
  - intros ->. apply as_strs_inv in Hss. discriminate.
  - apply as_strs_inv in Hss. apply top3_snippets_length in Htop.
    rewrite Hss, length_fmap in Htop. exact Htop.
Qed.

(** ** The classifier and the class test *)

(** Property X13. A sports query stays a sports query when text is put
    before and after it. *)
Theorem sports_query_stays_sports_when_extended (q pre post : string) :
  classify q = true -> classify (pre ++ q ++ post) = true.
Proof.
  unfold classify, is_cricket_query. rewrite !any_spec.
  intros (k & Hk & H). exists k. split; [exact Hk |].
  apply str_in_spec. apply str_in_spec in H.
  apply (substring_of_trans _ (lower q)); [exact H |].
  apply substring_of_lower. now exists pre, post.
Qed.

Lemma lower_split (x a b : string) :
  lower x = a ++ b -> exists a' b', x = a' ++ b' /\ lower a' = a /\ lower b' = b.
Proof.
  revert x. induction a as [|c a IH]; intros x H.
  - exists "", x. now rewrite app_empty in H.
  - destruct x as [|d x]; [discriminate |].
    rewrite app_cons in H. cbn [lower] in H. injection H as Hc H.
    destruct (IH x H) as (a' & b' & -> & <- & <-).
    exists (String d a'), b'. rewrite app_cons. cbn [lower]. now rewrite Hc.
Qed.

Lemma contains_nocase_lower (kw x : string) :
  contains_nocase kw x <-> substring_of (lower kw) (lower x).
Proof.
  split.
  - intros (pre & u & post & -> & Hu). exists (lower pre), (lower post).
    now rewrite !lower_app, Hu.
  - intros (pre & post & H).
    apply lower_split in H as (pre' & r & -> & _ & Hr).
    apply lower_split in Hr as (u & post' & -> & Hu & _).
    now exists pre', u, post'.
Qed.

(** Property X14. The search for service sections accepts a class
    attribute exactly when the attribute is present and its value, the
    tokens joined by spaces, contains "service" in some mix of upper and
    lower case; the second test of the callable, for "services", never
    changes its result. *)
Theorem service_class_matches_iff (c : option (list string)) :
  (class_matches service_class c = true <->
     exists toks, c = Some toks /\ contains_nocase "service" (Py.join " " toks))
  /\ (forall x, service_class (Some x) = str_in "service" (lower x)).
Proof.
  split; [| apply service_class_some].
  rewrite class_matches_names_service. destruct c as [toks |]; cbn [names_service].
  - rewrite str_in_spec. split.
    + intros H. exists toks. split; [reflexivity |].
      now apply contains_nocase_lower.
    + intros (toks' & [= <-] & H). now apply contains_nocase_lower in H.
  - split; [discriminate | intros (toks & H & _); discriminate].
Qed.

(** ** Pages and the services they list *)

Lemma descendants_tag (name : string) (c : option (list string)) (cs : list node) :
  descendants (Tag name c cs) = flat_map (fun x => x :: descendants x) cs.
Proof.
  cbn [descendants]. induction cs as [|x cs IH]; [reflexivity |].
  cbn [flat_map app]. now rewrite IH.
Qed.

Lemma descendants_items (items : list string) :
  flat_map (fun x => x :: descendants x) (li <$> items)
  = flat_map (fun t => [li t; NavigableString t]) items.
Proof.
  induction items as [|t items IH]; [reflexivity |].
  rewrite fmap_cons. cbn [flat_map]. now rewrite IH.
Qed.

Lemma get_text_strip_li (t : string) : get_text_strip (li t) = strip t.
Proof.
  unfold get_text_strip, li. cbn [descendants app].
  change (omap ?f [NavigableString t])
    with (match f (NavigableString t) with Some y => [y] | None => [] end).
  cbn beta iota. now destruct (strip t).
Qed.

Lemma items_hold_no_container (items : list string) :
  List.filter is_container
    (flat_map (fun t => [li t; NavigableString t]) items) = [].
Proof. induction items as [|t items IH]; [reflexivity | exact IH]. Qed.

Lemma items_are_the_elements (items : list string) :
  List.filter (is_element ["h2"; "h3"; "li"; "p"])
    (flat_map (fun t => [li t; NavigableString t]) items) = li <$> items.
Proof.
  induction items as [|t items IH]; [reflexivity |].
  rewrite fmap_cons, <- IH. reflexivity.
Qed.

Lemma filter_all {A} (keep : A -> bool) (l : list A) :
  Forall (fun x => keep x = true) l -> List.filter keep l = l.
Proof.
  induction 1 as [|x l Hx _ IH]; [reflexivity |].
  cbn [List.filter]. now rewrite Hx, IH.
Qed.

(** The texts that a list of items contributes to a container above it. *)
Lemma container_items (items : list string) :
  Forall (fun t => (10 < String.length (strip t))%nat) items ->
  List.filter (fun t => (10 <? String.length t)%nat)
    (map get_text_strip
       (List.filter (is_element ["h2"; "h3"; "li"; "p"])
          (flat_map (fun t => [li t; NavigableString t]) items)))
  = strip <$> items.
Proof.
  intros H. rewrite items_are_the_elements.
  assert (map get_text_strip (li <$> items) = strip <$> items) as ->.
  { clear H. induction items as [|t items IH]; [reflexivity |].
    rewrite !fmap_cons, get_text_strip_li. f_equal. exact IH. }
  apply filter_all. apply Forall_fmap. eapply Forall_impl; [exact H |].
  intros t Ht. now apply Nat.ltb_lt.
Qed.

Lemma div_names_a_container : bool_decide ("div" ∈ ["section"; "div"]) = true.
Proof. reflexivity. Qed.

Lemma section_names_a_container :
  bool_decide ("section" ∈ ["section"; "div"]) = true.
Proof. reflexivity. Qed.

Lemma ul_names_no_container : bool_decide ("ul" ∈ ["section"; "div"]) = false.
Proof. reflexivity. Qed.

Lemma ul_is_no_item : bool_decide ("ul" ∈ ["h2"; "h3"; "li"; "p"]) = false.
Proof. reflexivity. Qed.

Lemma div_is_no_item : bool_decide ("div" ∈ ["h2"; "h3"; "li"; "p"]) = false.
Proof. reflexivity. Qed.

(** Property X15. For a page that is a div with a service class around a
    list of items, each longer than 10 characters once stripped, the
    services extracted are exactly the stripped items, in document order. *)
Theorem services_list_items (class_ : list string) (items : list string) :
  names_service (Some class_) = true -> items <> [] ->
  Forall (fun t => (10 < String.length (strip t))%nat) items ->
  extract_services (document [services_list class_ items]) = strip <$> items.
Proof.
  intros Hc Hne Hlen.
  assert (Ha : layer_a (document [services_list class_ items]) = strip <$> items).
  { unfold layer_a, document, services_list.
    rewrite !descendants_tag. cbn [flat_map]. rewrite !descendants_tag.
    cbn [flat_map]. rewrite !descendants_tag, descendants_items, !app_nil_r.
    cbn [List.filter is_container is_element].
    rewrite div_names_a_container. cbn [andb]. rewrite Hc.
    rewrite ul_names_no_container.
    rewrite items_hold_no_container. cbn [flat_map].
    rewrite descendants_tag. cbn [flat_map]. rewrite descendants_tag.
    rewrite descendants_items, !app_nil_r. cbn [List.filter is_element].
    rewrite ul_is_no_item.
    now rewrite (container_items _ Hlen). }
  unfold extract_services. rewrite structured_services_layer_a, Ha.
  destruct items; [congruence | reflexivity].
Qed.

(** Property X16. When the div of the items lies inside a section that
    also has a service class, every item is listed twice: once for each of
    the two containers. *)
Theorem nested_containers_list_items_twice (outer inner : list string)
    (items : list string) :
  names_service (Some outer) = true -> names_service (Some inner) = true ->
  items <> [] ->
  Forall (fun t => (10 < String.length (strip t))%nat) items ->
  extract_services (document [nested_services_list outer inner items])
  = ((strip <$> items) ++ (strip <$> items))%list.
Proof.
  intros Ho Hi Hne Hlen.
  assert (Ha : layer_a (document [nested_services_list outer inner items])
               = ((strip <$> items) ++ (strip <$> items))%list).
  { unfold layer_a, document, nested_services_list, services_list.
    rewrite !descendants_tag. cbn [flat_map]. rewrite !descendants_tag.
    cbn [flat_map]. rewrite !descendants_tag. cbn [flat_map].
    rewrite !descendants_tag, descendants_items, !app_nil_r.
    cbn [List.filter is_container is_element].
    rewrite section_names_a_container, div_names_a_container. cbn [andb].
    rewrite Ho, Hi, ul_names_no_container.
    rewrite items_hold_no_container. cbn [flat_map].
    rewrite !descendants_tag. cbn [flat_map]. rewrite !descendants_tag.
    cbn [flat_map]. rewrite !descendants_tag, descendants_items, !app_nil_r.
    cbn [List.filter is_element].
    rewrite div_is_no_item, ul_is_no_item.
    now rewrite (container_items _ Hlen). }
  unfold extract_services. rewrite structured_services_layer_a, Ha.
  destruct items; [congruence | reflexivity].
Qed.

Lemma layer_a_items_are_long (soup : node) (x : string) :
  x ∈ layer_a soup -> (10 < String.length x)%nat.
Proof.
  unfold layer_a. rewrite list_elem_of_In, in_flat_map.
  intros (c & _ & H). apply filter_In in H as [_ H]. now apply Nat.ltb_lt.
Qed.

Lemma layer_b_items_are_long (soup : node) (x : string) :
  x ∈ layer_b soup -> (20 < String.length x)%nat.
Proof.
  unfold layer_b.
  destruct (first_element "main" soup ∪ first_element "article" soup
            ∪ first_element "body" soup) as [c |]; [| intros H; inversion H].
  rewrite list_elem_of_In. intros H. apply filter_In in H as [_ H].
  apply andb_true_iff in H as [H _]. now apply Nat.ltb_lt.
Qed.

(** Property X17. The list of services that is formatted is never empty,
    and it is the fixed default list or holds only texts longer than 10
    characters. *)
Theorem extracted_services_never_empty (soup : node) :
  extract_services soup <> []
  /\ (extract_services soup = default_services
      \/ forall x, x ∈ extract_services soup -> (10 < String.length x)%nat).
Proof.
  unfold extract_services. rewrite structured_services_layer_a.
  destruct (layer_a soup) as [|a la] eqn:Ha.
  - rewrite main_content_services_layer_b.
    destruct (layer_b soup) as [|b lb] eqn:Hb.
    + split; [discriminate | now left].
    + split; [discriminate | right]. intros x Hx. rewrite <- Hb in Hx.
      apply layer_b_items_are_long in Hx. lia.
  - split; [discriminate | right]. intros x Hx. rewrite <- Ha in Hx.
    now apply layer_a_items_are_long in Hx.
Qed.

(** ** The answer built from the page *)

Lemma bullet_in_format (services : list string) (x : string) :
  x ∈ services -> substring_of ("- " ++ x) (format_services services).
Proof.
  intros Hx. unfold format_services.
  apply (substring_of_trans _
           (Py.join LF (map (fun service => "- " ++ service) services))).
  - apply substring_of_join. apply list_elem_of_In, in_map.
    now apply list_elem_of_In.
  - exists ("Sena provides the following services:" ++ LF),
      (LF ++ LF
       ++ "For more detailed information, please visit https://sena.services directly.").
    now rewrite !app_assoc_str.
Qed.

(** Property X18. For a query that is not a sports query, when the fixed
    site answers with status 200 and its page parses, the answer is the
    formatted list of the services extracted from the page, and every
    extracted service occurs in it as a bullet "- <service>". *)
Theorem site_answer_lists_services (e : env) (q : string) (s : state)
    (soup : node) :
  classify q = false -> site_page e soup ->
  answers e q s (format_services (extract_services soup))
  /\ forall x, x ∈ extract_services soup ->
               substring_of ("- " ++ x) (format_services (extract_services soup)).
Proof.
  intros Hq (response & Hget & Hc & Hp). split.
  - eapply answers_of_text. rewrite (response_text_other _ _ Hq).
    unfold sena_branch, try_except, sena_lookup. unfold bind at 1.
    rewrite get_run, Hget, Hc. cbn [Z.eqb Pos.eqb]. mred. rewrite Hp.
    reflexivity.
  - intros x. apply bullet_in_format.
Qed.

(** ** Temporary files *)

Lemma os_path_join_inj (a b1 b2 : string) :
  os_path_join a b1 = os_path_join a b2 -> b1 = b2.
Proof.
  unfold os_path_join. destruct (String.rev a) as [|c r]; [auto |].
  destruct (ascii_dec c "/"); intros H.
  - now apply String.app_inj in H.
  - apply String.app_inj in H. rewrite !app_cons in H. now injection H.
Qed.

(** Property X19. The temporary file of POST /api/transcribe and the
    temporary file of POST /api/search never have the same path, whatever
    the two clock readings. *)
Theorem temp_files_never_collide (e : env) (t1 t2 : datetime) :
  temp_path_of e t1 <> temp_audio_path_of e t2.
Proof.
  unfold temp_path_of, temp_audio_path_of. intros H.
  apply os_path_join_inj in H. rewrite !app_cons in H. discriminate H.
Qed.

(** ** The further properties at sample inputs *)

Lemma no_fault_is_healthy (e : env) (ops : list fs_op) :
  (forall op, fault e op = None) -> healthy e ops.
Proof. intros H op _. apply H. Defined.

Lemma sticky_saves (path : string) : healthy sticky (upload_file_ops path).
Proof.
  intros op Hop. unfold upload_file_ops in Hop.
  repeat (apply elem_of_cons in Hop as [-> | Hop]; [reflexivity |]).
  inversion Hop.
Defined.

(** X1 at a sample input: a recording on a healthy disk. *)
Lemma transcribe_success_removes_file_witness :
  exists s',
    transcribe_audio fair recording boot
    = (Ok (mkJSONResponse 200 {[ "text" := "hello" ]}), s')
    /\ fs s' = delete "/tmp/temp_audio_20240301_120000.wav" (fs boot)
    /\ trace s' = (trace boot ++ [TranscriptionsCreate some_audio])%list.
Proof.
  refine (transcribe_success_removes_file fair recording boot some_audio "hello"
            eq_refl _ _ eq_refl).
  - discriminate.
  - now apply no_fault_is_healthy.
Defined.

(** X2 at a sample input: the transcription provider refuses. *)
Lemma transcription_failure_removes_file_witness :
  exists s',
    transcribe_audio deaf recording boot
    = (Ok (mkJSONResponse 500
             {[ "error" := "Error during transcription: " ++ "insufficient_quota" ]}),
       s')
    /\ fs s' = delete "/tmp/temp_audio_20240301_120000.wav" (fs boot)
    /\ trace s' = (trace boot ++ [TranscriptionsCreate some_audio])%list.
Proof.
  refine (transcription_failure_removes_file deaf recording boot some_audio
            "insufficient_quota" eq_refl _ _ eq_refl).
  - discriminate.
  - now apply no_fault_is_healthy.
Defined.

(** X3 at a sample input: the file cannot be removed. *)
Lemma removal_failure_is_swallowed_witness :
  exists s',
    transcribe_audio sticky recording boot
    = (Ok (mkJSONResponse 200 {[ "text" := "hello" ]}), s')
    /\ fs s' !! "/tmp/temp_audio_20240301_120000.wav" = Some some_audio.
Proof.
  refine (removal_failure_is_swallowed sticky recording boot some_audio
            "[Errno 16] Device or resource busy" eq_refl _ _ eq_refl).
  - discriminate.
  - apply sticky_saves.
Defined.

(** X4 at a sample input: the disk is full. *)
Lemma save_failure_is_reported_witness :
  exists s',
    transcribe_audio full_disk recording boot
    = (Ok (mkJSONResponse 500
             {[ "error" := "Error saving file: "
                           ++ "[Errno 28] No space left on device" ]}), s')
    /\ trace s' = trace boot.
Proof.
  refine (save_failure_is_reported full_disk recording boot
            "[Errno 28] No space left on device" _).
  right. split; [reflexivity |]. right.
  eexists _, _. split; [reflexivity |]. left. reflexivity.
Defined.

(** X5 at a sample input: another file on the disk is left alone. *)
Lemma transcribe_touches_only_its_file_witness :
  fs (snd (transcribe_audio fair recording boot)) !! "/tmp/notes.txt"
  = fs boot !! "/tmp/notes.txt".
Proof.
  refine (proj1 (transcribe_touches_only_its_file fair recording boot)
            "/tmp/notes.txt" _).
  discriminate.
Defined.

(** X6 at a sample input: the clock reads 1 January of the year 1. *)
Lemma date_failure_by_path_witness :
  (exists s',
     search dawn "Who won the cricket?" boot
     = (Ok (mkJSONResponse 500
              {[ "error" := "Unexpected error: " ++ "date value out of range" ]}),
        s')
     /\ trace s' = trace boot /\ fs s' = fs boot)
  /\ answers dawn "What does Sena offer?" boot unable_to_access.
Proof.
  split.
  - exact (proj1 (date_failure_by_path dawn "Who won the cricket?" boot
                    "date value out of range" eq_refl) eq_refl).
  - refine (proj2 (date_failure_by_path dawn "What does Sena offer?" boot
                     "date value out of range" eq_refl) eq_refl 503 _ _).
    + eexists. split; reflexivity.
    + discriminate.
Defined.

(** X7 at a sample input: the text spoken is the text of the answer. *)
Lemma spoken_text_is_returned_text_witness :
  exists t,
    content (mkJSONResponse 200
               {[ "text" := unable_to_fetch; "audio" := "TWFu" ]}) !! "text"
    = Some t
    /\ last (trace (snd (search broken "Who won the cricket?" boot)))
       = Some (SpeechCreate t).
Proof.
  refine (spoken_text_is_returned_text broken "Who won the cricket?" boot
            (mkJSONResponse 200 {[ "text" := unable_to_fetch; "audio" := "TWFu" ]})
            (snd (search broken "Who won the cricket?" boot)) _ eq_refl).
  vm_compute. reflexivity.
Defined.

(** X8 at a sample input: a sports query does not reach the fixed site. *)
Lemma search_contacts_one_source_witness :
  exists t,
    answers fair "Who won the cricket?" boot t
    /\ trace (snd (search fair "Who won the cricket?" boot))
       = (trace boot
          ++ [HttpGet serpapi_url
                (Some (serp_params fair (search_query_of "February 29, 2024")));
              SpeechCreate t])%list.
Proof.
  refine (proj1 (search_contacts_one_source fair "Who won the cricket?" boot)
            eq_refl "February 29, 2024" _).
  now apply leap_day_is_yesterday.
Defined.

(** X9 at a sample input: another file on the disk is left alone. *)
Lemma search_touches_only_temp_audio_witness :
  fs (snd (search full_disk "Who won the cricket?" boot)) !! "/tmp/notes.txt"
  = fs boot !! "/tmp/notes.txt".
Proof.
  refine (proj1 (search_touches_only_temp_audio full_disk
                   "Who won the cricket?" boot) "/tmp/notes.txt" _).
  intros now. unfold temp_audio_path_of. cbn [TEMP_DIR full_disk world].
  intros H. apply (os_path_join_inj "/tmp" "notes.txt") in H.
  rewrite !app_cons in H. discriminate H.
Defined.

(** X10 at a sample input: a number for a snippet. *)
Lemma non_text_snippet_spoils_answer_witness :
  answers odd "Who won the cricket?" boot unable_to_fetch.
Proof.
  refine (non_text_snippet_spoils_answer odd "Who won the cricket?" boot
            "February 29, 2024" (organic_doc odd_results) odd_results (JInt 3)
            eq_refl _ _ eq_refl _ _ _).
  - now apply leap_day_is_yesterday.
  - apply provider_sends_doc.
  - repeat constructor; eexists; reflexivity.
  - apply list_elem_of_here.
  - intros [x Hx]. discriminate Hx.
Defined.

(** X11 at a sample input: five results against four. *)
Lemma later_results_are_ignored_witness :
  answers fair4 "Who won the cricket?" boot (sports_text "February 29, 2024" top5).
Proof.
  refine (later_results_are_ignored fair fair4 "Who won the cricket?" boot
            "February 29, 2024" (organic_doc top5) (organic_doc top4) top5 top4
            (sports_text "February 29, 2024" top5)
            eq_refl _ _ _ _ eq_refl eq_refl eq_refl _).
  - now apply leap_day_is_yesterday.
  - now apply leap_day_is_yesterday.
  - apply provider_sends_doc.
  - apply provider_sends_doc.
  - eapply answers_of_text. vm_compute. reflexivity.
Defined.

(** X12 at a sample input. *)
Lemma sports_answer_forms_witness :
  exists t,
    answers odd "Who won the cricket?" boot t
    /\ (t = unable_to_fetch
        \/ t = no_results_for "February 29, 2024"
        \/ t = no_detailed_results_for "February 29, 2024"
        \/ exists snippets,
             snippets <> [] /\ (length snippets <= 3)%nat
             /\ t = "Here are the cricket results from " ++ "February 29, 2024"
                    ++ ":" ++ LF ++ LF ++ Py.join (LF ++ LF) snippets).
Proof.
  refine (sports_answer_forms odd "Who won the cricket?" boot
            "February 29, 2024" eq_refl _).
  now apply leap_day_is_yesterday.
Defined.

(** X13 at a sample input. *)
Lemma sports_query_stays_sports_when_extended_witness :
  classify ("Tell me, " ++ "who won the match" ++ " in Mumbai?") = true.
Proof.
  exact (sports_query_stays_sports_when_extended "who won the match"
           "Tell me, " " in Mumbai?" eq_refl).
Defined.

(** X14 at a sample input: a class in capitals. *)
Lemma service_class_matches_iff_witness :
  class_matches service_class (Some ["Our-SERVICES"; "wide"]) = true.
Proof.
  refine (proj2 (proj1 (service_class_matches_iff
                          (Some ["Our-SERVICES"; "wide"]))) _).
  exists ["Our-SERVICES"; "wide"]. split; [reflexivity |].
  exists "Our-", "SERVICE", "S wide". split; reflexivity.
Defined.

Lemma three_items_are_long :
  Forall (fun t => (10 < String.length (strip t))%nat) three_items.
Proof. repeat constructor; vm_compute; lia. Defined.

(** X15 at a sample input: three list items in a services container. *)
Lemma services_list_items_witness :
  extract_services (document [services_list ["services"] three_items])
  = ["Web design and more"; "Cloud hosting plans"; "Search engine marketing"].
Proof.
  refine (services_list_items ["services"] three_items eq_refl _
            three_items_are_long).
  discriminate.
Defined.

(** X16 at a sample input: the same items under two containers. *)
Lemma nested_containers_list_items_twice_witness :
  extract_services
    (document [nested_services_list ["service-area"] ["services"] three_items])
  = ["Web design and more"; "Cloud hosting plans"; "Search engine marketing";
     "Web design and more"; "Cloud hosting plans"; "Search engine marketing"].
Proof.
  refine (nested_containers_list_items_twice ["service-area"] ["services"]
            three_items eq_refl eq_refl _ three_items_are_long).
  discriminate.
Defined.

(** X17 at a sample input. *)
Lemma extracted_services_never_empty_witness :
  extract_services offers_page <> [].
Proof. exact (proj1 (extracted_services_never_empty offers_page)). Defined.

(** X18 at a sample input: the page of [fair]. *)
Lemma site_answer_lists_services_witness :
  answers fair "What does Sena offer?" boot
    (format_services (extract_services services_page)).
Proof.
  refine (proj1 (site_answer_lists_services fair "What does Sena offer?" boot
                   services_page eq_refl _)).
  eexists. split; [reflexivity | split; reflexivity].
Defined.

(** X19 at a sample input: the two files of the same second. *)
Lemma temp_files_never_collide_witness :
  temp_path_of fair noon <> temp_audio_path_of fair noon.
Proof. exact (temp_files_never_collide fair noon noon). Defined.
